(** * JStechCurve: the numerical core of [src/lib/curves.ts]

    The module under study generates a hype-cycle curve and a logistic
    adoption curve, shifts one of them in time with linear resampling,
    and blends the two.  This development embeds the five exported
    functions of [curves.ts] and proves the properties the specification
    states about them.

    JavaScript numbers are embedded as the reals extended with the two
    infinities and NaN.  Rounding, overflow and the sign of zero are
    abstracted away: every operation on finite operands is the exact real
    operation, and the special values follow IEEE 754 as JavaScript
    exposes it (0/0 is NaN, a comparison with NaN is false, ...).

    Where a statement is sensitive to rounding, the resampler is also
    embedded on binary64 numbers (module [Binary64]), which is what the
    program computes with; that embedding evaluates. *)

From Stdlib Require Import Reals List ZArith Lra Lia Bool Sorted.
From Stdlib Require PrimFloat FloatClass.
Import ListNotations.

Open Scope R_scope.

(** ** JavaScript numbers *)

Module JSNumber.

Inductive number : Type :=
| Fin (r : R)
| PInf
| NInf
| NaN.

(** The infinity whose sign is the sign of [x]; NaN when [x] is zero
    (the result of [x * Infinity] and, up to the sign of zero, [x / 0]). *)
Definition signed_inf (x : R) : number :=
  if Rlt_dec 0 x then PInf else if Rlt_dec x 0 then NInf else NaN.

(** Unary minus. *)
Definition neg (a : number) : number :=
  match a with
  | Fin x => Fin (- x)
  | PInf => NInf
  | NInf => PInf
  | NaN => NaN
  end.

(** [a + b] *)
Definition add (a b : number) : number :=
  match a, b with
  | NaN, _ | _, NaN => NaN
  | Fin x, Fin y => Fin (x + y)
  | PInf, NInf | NInf, PInf => NaN
  | PInf, _ | _, PInf => PInf
  | NInf, _ | _, NInf => NInf
  end.

(** [a - b] *)
Definition sub (a b : number) : number := add a (neg b).

(** [a * b] *)
Definition mul (a b : number) : number :=
  match a, b with
  | NaN, _ | _, NaN => NaN
  | Fin x, Fin y => Fin (x * y)
  | Fin x, PInf | PInf, Fin x => signed_inf x
  | Fin x, NInf | NInf, Fin x => signed_inf (- x)
  | PInf, PInf | NInf, NInf => PInf
  | PInf, NInf | NInf, PInf => NInf
  end.

(** [a / b]; a zero divisor is taken as [+0]. *)
Definition div (a b : number) : number :=
  match a, b with
  | NaN, _ | _, NaN => NaN
  | Fin x, Fin y => if Req_dec_T y 0 then signed_inf x else Fin (x / y)
  | Fin _, PInf | Fin _, NInf => Fin 0
  | PInf, Fin y => if Rlt_dec y 0 then NInf else PInf
  | NInf, Fin y => if Rlt_dec y 0 then PInf else NInf
  | _, _ => NaN
  end.

(** [a ** n] for a literal natural exponent; [a ** 0] is 1 even for NaN. *)
Fixpoint pow (a : number) (n : nat) : number :=
  match n with
  | O => Fin 1
  | S n' => mul a (pow a n')
  end.

(** [Math.exp] *)
Definition exp (a : number) : number :=
  match a with
  | Fin x => Fin (Rtrigo_def.exp x)
  | PInf => PInf
  | NInf => Fin 0
  | NaN => NaN
  end.

(** [Math.abs] *)
Definition abs (a : number) : number :=
  match a with
  | Fin x => Fin (Rabs x)
  | PInf | NInf => PInf
  | NaN => NaN
  end.

(** [a < b] *)
Definition ltb (a b : number) : bool :=
  match a, b with
  | NaN, _ | _, NaN => false
  | Fin x, Fin y => if Rlt_dec x y then true else false
  | NInf, NInf | PInf, _ | _, NInf => false
  | NInf, _ | _, PInf => true
  end.

(** [a === b] *)
Definition strict_eq (a b : number) : bool :=
  match a, b with
  | Fin x, Fin y => if Req_dec_T x y then true else false
  | PInf, PInf | NInf, NInf => true
  | _, _ => false
  end.

(** [a <= b] *)
Definition leb (a b : number) : bool := ltb a b || strict_eq a b.

(** [a >= b] *)
Definition geb (a b : number) : bool := leb b a.

(** [Math.min(a, b)]: NaN as soon as one argument is NaN. *)
Definition min (a b : number) : number :=
  match a, b with
  | NaN, _ | _, NaN => NaN
  | _, _ => if ltb b a then b else a
  end.

(** [Math.max(a, b)]: NaN as soon as one argument is NaN. *)
Definition max (a b : number) : number :=
  match a, b with
  | NaN, _ | _, NaN => NaN
  | _, _ => if ltb a b then b else a
  end.

(** An integer loop counter read as a number. *)
Definition of_Z (z : Z) : number := Fin (IZR z).

(** A number that is an ordinary real. *)
Definition finite (a : number) : Prop := exists x : R, a = Fin x.

End JSNumber.

Import JSNumber.

(** ** Exceptions

    The only exception the core can raise is the [TypeError] of reading a
    property of [undefined]. *)

Inductive exn : Type := TypeError.

Inductive result (A : Type) : Type :=
| Ok (a : A)
| Throw (e : exn).

Arguments Ok {A} a.
Arguments Throw {A} e.

Definition bind {A B : Type} (m : result A) (k : A -> result B) : result B :=
  match m with
  | Ok a => k a
  | Throw e => Throw e
  end.

Notation "x <- m ;; k" := (bind m (fun x => k))
  (at level 61, m at next level, right associativity).

(** [Array.prototype.map] with a callback that may throw: elements are
    visited left to right and the first exception aborts the call. *)
Fixpoint mapM {A B : Type} (f : A -> result B) (l : list A) : result (list B) :=
  match l with
  | [] => Ok []
  | a :: l' =>
      b <- f a ;;
      bs <- mapM f l' ;;
      Ok (b :: bs)
  end.

(** ** The curves *)

Module Curves.

(** [interface CurvePoint { time: number; value: number }] *)
Record CurvePoint : Type := mkPoint { time : number; value : number }.

(** [Math.max(0, Math.min(1, v))] *)
Definition clamp01 (v : number) : number := max (Fin 0) (min (Fin 1) v).

(** The values of the counter of [for (let i = 0; i <= points; i++)]. *)
Definition indices (points : Z) : list Z :=
  map Z.of_nat (seq 0 (Z.to_nat (points + 1))).

(** [(i / points) * totalRange + startTime], with
    [totalRange = timeRange + Math.abs(startTime)]. *)
Definition sampleTime (timeRange : number) (points : Z) (startTime : number)
    (i : Z) : number :=
  let totalRange := add timeRange (abs startTime) in
  add (mul (div (of_Z i) (of_Z points)) totalRange) startTime.

(** *** generateHypeCycle: the four branches on local time [t] *)

(** [t < 0]: before the technology trigger. *)
Definition hypeBaseline : number := Fin 0.05.

(** [t <= 3]: [0.1 + 0.9 * (1 - Math.exp(-t * 1.5)) * Math.exp(-((t - 2.5) ** 2) / 2)] *)
Definition hypeRise (t : number) : number :=
  add (Fin 0.1)
      (mul (mul (Fin 0.9) (sub (Fin 1) (exp (mul (neg t) (Fin 1.5)))))
           (exp (div (neg (pow (sub t (Fin 2.5)) 2)) (Fin 2)))).

(** [t <= 10]: [troughValue + (peakValue - troughValue) * Math.exp(-(t - 3) * 0.8)] *)
Definition hypeDecline (t : number) : number :=
  let peakValue := Fin 0.95 in
  let troughValue := Fin 0.15 in
  let decline := exp (mul (neg (sub t (Fin 3))) (Fin 0.8)) in
  add troughValue (mul (sub peakValue troughValue) decline).

(** otherwise: logistic recovery from the trough to the plateau. *)
Definition hypeRecovery (t : number) : number :=
  let troughValue := Fin 0.15 in
  let plateauValue := Fin 0.7 in
  let progress := min (Fin 1) (div (sub t (Fin 10)) (Fin 8)) in
  add troughValue
      (mul (sub plateauValue troughValue)
           (div (Fin 1)
                (add (Fin 1) (exp (mul (Fin (-5)) (sub progress (Fin 0.5))))))).

(** The [if / else if / else] chain of the loop body. *)
Definition hypeValue (t : number) : number :=
  if ltb t (Fin 0) then hypeBaseline
  else if leb t (Fin 3) then hypeRise t
  else if leb t (Fin 10) then hypeDecline t
  else hypeRecovery t.

Definition generateHypeCycle (timeRange : number) (points : Z)
    (startTime : number) : list CurvePoint :=
  map (fun i =>
         let t := sampleTime timeRange points startTime i in
         mkPoint t (clamp01 (hypeValue t)))
      (indices points).

(** *** generateSCurve *)

(** [1 / (1 + Math.exp(-growthRate * (t - midpoint)))] *)
Definition sCurveValue (timeRange t : number) : number :=
  let growthRate := Fin 0.5 in
  let midpoint := mul timeRange (Fin 0.4) in
  div (Fin 1) (add (Fin 1) (exp (mul (neg growthRate) (sub t midpoint)))).

Definition generateSCurve (timeRange : number) (points : Z)
    (startTime : number) : list CurvePoint :=
  map (fun i =>
         let t := sampleTime timeRange points startTime i in
         mkPoint t (sCurveValue timeRange t))
      (indices points).

(** *** blendCurves

    The loop runs over the first [Math.min(curve1.length, curve2.length)]
    indices, which is what [combine] pairs up. *)
Definition blendPoint (blendRatio : number) (pq : CurvePoint * CurvePoint)
    : CurvePoint :=
  let (p, q) := pq in
  mkPoint (time p)
          (add (mul (value p) (sub (Fin 1) blendRatio))
               (mul (value q) blendRatio)).

Definition blendCurves (curve1 curve2 : list CurvePoint) (blendRatio : number)
    : list CurvePoint :=
  map (blendPoint blendRatio) (combine curve1 curve2).

(** *** offsetCurve *)

(** [curve.map(point => ({ time: point.time + offset, value: point.value }))] *)
Definition offsetCurveMap (curve : list CurvePoint) (offset : number)
    : list CurvePoint :=
  map (fun point => mkPoint (add (time point) offset) (value point)) curve.

(** The scanning loop with its [break]: the first index [i] with
    [m[i].time <= time && m[i + 1].time >= time]. *)
Fixpoint scan (m : list CurvePoint) (t : number)
    : option (CurvePoint * CurvePoint) :=
  match m with
  | p :: ((q :: _) as rest) =>
      if leb (time p) t && geb (time q) t then Some (p, q) else scan rest t
  | _ => None
  end.

(** [beforePoint] and [afterPoint] after the loop.  They start as [m[0]]
    and [m[m.length - 1]], both [undefined] on an empty array ([None]). *)
Definition bracket (m : list CurvePoint) (t : number)
    : option (CurvePoint * CurvePoint) :=
  match scan m t with
  | Some pq => Some pq
  | None =>
      match nth_error m 0, nth_error m (length m - 1) with
      | Some beforePoint, Some afterPoint => Some (beforePoint, afterPoint)
      | _, _ => None
      end
  end.

(** The interpolation of the callback once the pair is chosen. *)
Definition interpolate (beforePoint afterPoint : CurvePoint) (t : number)
    : CurvePoint :=
  if strict_eq (time beforePoint) (time afterPoint)
  then mkPoint t (value beforePoint)
  else
    let r := div (sub t (time beforePoint))
                 (sub (time afterPoint) (time beforePoint)) in
    let v := add (value beforePoint)
                 (mul r (sub (value afterPoint) (value beforePoint))) in
    mkPoint t (clamp01 v).

(** The callback of [originalTimes.map]: reading [beforePoint.time] of an
    [undefined] point throws. *)
Definition resampleAt (m : list CurvePoint) (t : number) : result CurvePoint :=
  match bracket m t with
  | Some (beforePoint, afterPoint) => Ok (interpolate beforePoint afterPoint t)
  | None => Throw TypeError
  end.

Definition offsetCurve (curve : list CurvePoint) (offset : number)
    (originalTimes : list number) : result (list CurvePoint) :=
  mapM (resampleAt (offsetCurveMap curve offset)) originalTimes.

(** *** generateCombinedCurve *)

Record Combined : Type := mkCombined {
  hypeCurve : list CurvePoint;
  sCurve : list CurvePoint;
  combinedCurve : list CurvePoint
}.

Definition generateCombinedCurve (timeOffset blendRatio timeRange : number)
    (points : Z) (startTime : number) : result Combined :=
  let hype := generateHypeCycle timeRange points startTime in
  let originalSCurve := generateSCurve timeRange points startTime in
  let originalTimes := map time hype in
  s <- offsetCurve originalSCurve timeOffset originalTimes ;;
  let combined := blendCurves hype s blendRatio in
  Ok (mkCombined hype s combined).

End Curves.

Import Curves.

(** ** The earlier revision of the module

    The repository also holds the revision of [curves.ts] that came before
    negative start times: the generators sample [[0, timeRange]], there is
    no baseline branch, [offsetCurve] only moves the time stamps and the
    orchestrator blends without resampling.  The three later branches of
    the hype model, the logistic value and [blendCurves] are textually the
    same as in the current revision and are shared. *)

Module Legacy.

(** [(i / points) * timeRange] *)
Definition sampleTime (timeRange : number) (points : Z) (i : Z) : number :=
  mul (div (of_Z i) (of_Z points)) timeRange.

(** The [if / else if / else] chain, which starts at [t <= 3]. *)
Definition hypeValue (t : number) : number :=
  if leb t (Fin 3) then hypeRise t
  else if leb t (Fin 10) then hypeDecline t
  else hypeRecovery t.

Definition generateHypeCycle (timeRange : number) (points : Z)
    : list CurvePoint :=
  map (fun i =>
         let t := sampleTime timeRange points i in
         mkPoint t (clamp01 (hypeValue t)))
      (indices points).

Definition generateSCurve (timeRange : number) (points : Z) : list CurvePoint :=
  map (fun i =>
         let t := sampleTime timeRange points i in
         mkPoint t (sCurveValue timeRange t))
      (indices points).

(** [curve.map(point => ({ time: point.time + offset, value: point.value }))] *)
Definition offsetCurve (curve : list CurvePoint) (offset : number)
    : list CurvePoint :=
  map (fun point => mkPoint (add (time point) offset) (value point)) curve.

Definition generateCombinedCurve (timeOffset blendRatio timeRange : number)
    (points : Z) : Combined :=
  let hype := generateHypeCycle timeRange points in
  let s := generateSCurve timeRange points in
  let s := offsetCurve s timeOffset in
  let combined := blendCurves hype s blendRatio in
  mkCombined hype s combined.

End Legacy.

(** ** The chart rows of [CurveVisualization.tsx]

    The component recomputes, inside [useMemo], the rows it hands to the
    chart from the two slider values.  Only that callback is embedded. *)

Module Chart.







End Chart.

(** ** The resampler on binary64 numbers

    [offsetCurve] once more, this time on the primitive binary64 floats,
    whose operations are those of a JavaScript [number]: every result is
    rounded to nearest, ties to even. *)

Module Binary64.

Import PrimFloat FloatClass.
#[local] Open Scope float_scope.

Record CurvePoint : Type := mkPoint { time : float; value : float }.

(** [Math.min(a, b)]: NaN as soon as one argument is NaN; [-0] is below
    [+0]. *)
Definition min (a b : float) : float :=
  if is_nan a || is_nan b then nan
  else if a <? b then a
  else if b <? a then b
  else match classify a with NZero => a | _ => b end.

(** [Math.max(a, b)]: NaN as soon as one argument is NaN; [+0] is above
    [-0]. *)
Definition max (a b : float) : float :=
  if is_nan a || is_nan b then nan
  else if a <? b then b
  else if b <? a then a
  else match classify a with PZero => a | _ => b end.

(** [Math.max(0, Math.min(1, v))] *)
Definition clamp01 (v : float) : float := max 0 (min 1 v).

(** [curve.map(point => ({ time: point.time + offset, value: point.value }))] *)
Definition offsetCurveMap (curve : list CurvePoint) (offset : float)
    : list CurvePoint :=
  map (fun point => mkPoint (time point + offset) (value point)) curve.

(** The scanning loop with its [break]. *)
Fixpoint scan (m : list CurvePoint) (t : float)
    : option (CurvePoint * CurvePoint) :=
  match m with
  | p :: ((q :: _) as rest) =>
      if (time p <=? t) && (t <=? time q) then Some (p, q) else scan rest t
  | _ => None
  end.

(** [beforePoint] and [afterPoint] after the loop; [None] when they are
    [undefined]. *)
Definition bracket (m : list CurvePoint) (t : float)
    : option (CurvePoint * CurvePoint) :=
  match scan m t with
  | Some pq => Some pq
  | None =>
      match nth_error m 0, nth_error m (length m - 1) with
      | Some beforePoint, Some afterPoint => Some (beforePoint, afterPoint)
      | _, _ => None
      end
  end.

Definition interpolate (beforePoint afterPoint : CurvePoint) (t : float)
    : CurvePoint :=
  if time beforePoint =? time afterPoint
  then mkPoint t (value beforePoint)
  else
    let r := (t - time beforePoint) / (time afterPoint - time beforePoint) in
    let v := value beforePoint + r * (value afterPoint - value beforePoint) in
    mkPoint t (clamp01 v).

Definition resampleAt (m : list CurvePoint) (t : float) : result CurvePoint :=
  match bracket m t with
  | Some (beforePoint, afterPoint) => Ok (interpolate beforePoint afterPoint t)
  | None => Throw TypeError
  end.

Definition offsetCurve (curve : list CurvePoint) (offset : float)
    (originalTimes : list float) : result (list CurvePoint) :=
  mapM (resampleAt (offsetCurveMap curve offset)) originalTimes.

End Binary64.

(** ** Vocabulary of the statements

    The specification speaks of real-valued curves; the definitions below
    name what its sentences refer to. *)

(** A curve given by its real coordinates. *)
Definition pt (tv : R * R) : CurvePoint := mkPoint (Fin (fst tv)) (Fin (snd tv)).

Definition curveOf (l : list (R * R)) : list CurvePoint := map pt l.

(** The pointwise average of two real-valued curves on a common grid. *)
Definition average (la lb : list (R * R)) : list (R * R) :=
  map (fun ab => (fst (fst ab), (snd (fst ab) + snd (snd ab)) / 2))
      (combine la lb).

(** The shifted curve, on real coordinates. *)
Definition shifted (offset : R) (l : list (R * R)) : list (R * R) :=
  map (fun tv => (fst tv + offset, snd tv)) l.

(** What the resampler does at one reference time once its pair is known:
    the guard on equal times, or an interpolation whose divisor is a
    nonzero real. *)
Definition guarded_interpolation (m : list CurvePoint) (tau : R)
    (p : CurvePoint) : Prop :=
  exists tb vb ta va : R,
    bracket m (Fin tau) = Some (pt (tb, vb), pt (ta, va))
    /\ time p = Fin tau
    /\ ((tb = ta /\ value p = Fin vb)
        \/ (exists d : R,
              sub (Fin ta) (Fin tb) = Fin d /\ d <> 0
              /\ value p =
                 clamp01 (add (Fin vb)
                              (mul (div (sub (Fin tau) (Fin tb)) (Fin d))
                                   (sub (Fin va) (Fin vb))))
              /\ finite (value p))).


(** Times strictly increasing along the list. *)
Definition increasing (ts : list R) : Prop := StronglySorted Rlt ts.

(** The value the resampler returns at a reference time outside the
    shifted curve [first :: rest]: on the chord from the first to the last
    shifted point, clamped; the only value there is when the curve is a
    single point. *)
Definition chordValue (first : R * R) (rest : list (R * R)) (offset tau : R) : R :=
  let lastPoint := last (first :: rest) first in
  match rest with
  | [] => snd first
  | _ :: _ =>
      Rmax 0 (Rmin 1 (snd first
                      + (tau - (fst first + offset))
                        / ((fst lastPoint + offset) - (fst first + offset))
                        * (snd lastPoint - snd first)))
  end.

(** The adoption curve on real coordinates. *)
Definition gridTime (dl : R) (n : Z) (ds : R) (i : Z) : R :=
  IZR i / IZR n * (dl + Rabs ds) + ds.

Definition logistic (dl t : R) : R :=
  1 / (1 + Rtrigo_def.exp (- 0.5 * (t - 0.4 * dl))).

Definition sCurveReal (dl : R) (n : Z) (ds : R) : list (R * R) :=
  map (fun i => (gridTime dl n ds i, logistic dl (gridTime dl n ds i)))
      (indices n).

(** ** Proof automation *)

(** Equality of two real expressions that agree up to linear arithmetic
    below their calls to the exponential. *)
Ltac reals_eq_step :=
  first [ lra
        | apply f_equal; reals_eq_step
        | apply f_equal2; reals_eq_step ].

Ltac reals_eq := unfold Rminus, Rdiv; reals_eq_step.

(** ** Arithmetic on finite numbers *)

Section FiniteArithmetic.

Variables x y : R.

Lemma ltb_Fin_true : x < y -> ltb (Fin x) (Fin y) = true.
Proof. intros H. simpl. destruct (Rlt_dec x y); [reflexivity | contradiction]. Qed.

Lemma ltb_Fin_false : y <= x -> ltb (Fin x) (Fin y) = false.
Proof. intros H. simpl. destruct (Rlt_dec x y); [lra | reflexivity]. Qed.

Lemma ltb_Fin_inv : ltb (Fin x) (Fin y) = true -> x < y.
Proof. simpl. destruct (Rlt_dec x y); [trivial | discriminate]. Qed.

Lemma strict_eq_Fin_true : x = y -> strict_eq (Fin x) (Fin y) = true.
Proof. intros H. simpl. destruct (Req_dec_T x y); [reflexivity | contradiction]. Qed.

Lemma strict_eq_Fin_false : x <> y -> strict_eq (Fin x) (Fin y) = false.
Proof. intros H. simpl. destruct (Req_dec_T x y); [contradiction | reflexivity]. Qed.

Lemma leb_Fin_true : x <= y -> leb (Fin x) (Fin y) = true.
Proof.
  intros H. unfold leb. simpl.
  destruct (Rlt_dec x y); [reflexivity |].
  destruct (Req_dec_T x y); [reflexivity | lra].
Qed.

Lemma leb_Fin_false : y < x -> leb (Fin x) (Fin y) = false.
Proof.
  intros H. unfold leb. simpl.
  destruct (Rlt_dec x y); [lra |].
  destruct (Req_dec_T x y); [lra | reflexivity].
Qed.

Lemma geb_Fin_true : y <= x -> geb (Fin x) (Fin y) = true.
Proof. intros H. unfold geb, leb. simpl.
  destruct (Rlt_dec y x); [reflexivity |].
  destruct (Req_dec_T y x); [reflexivity | lra].
Qed.

Lemma geb_Fin_false : x < y -> geb (Fin x) (Fin y) = false.
Proof. intros H. unfold geb, leb. simpl.
  destruct (Rlt_dec y x); [lra |].
  destruct (Req_dec_T y x); [lra | reflexivity].
Qed.

Lemma div_Fin : y <> 0 -> div (Fin x) (Fin y) = Fin (x / y).
Proof. intros H. simpl. destruct (Req_dec_T y 0); [contradiction | reflexivity]. Qed.

End FiniteArithmetic.

Lemma min_Fin (a b : R) : min (Fin a) (Fin b) = Fin (Rmin a b).
Proof.
  unfold min, Rmin. simpl.
  destruct (Rlt_dec b a), (Rle_dec a b); try reflexivity; f_equal; lra.
Qed.

Lemma max_Fin (a b : R) : max (Fin a) (Fin b) = Fin (Rmax a b).
Proof.
  unfold max, Rmax. simpl.
  destruct (Rlt_dec a b), (Rle_dec a b); try reflexivity; f_equal; lra.
Qed.

Lemma clamp01_Fin (v : R) : clamp01 (Fin v) = Fin (Rmax 0 (Rmin 1 v)).
Proof. unfold clamp01. now rewrite min_Fin, max_Fin. Qed.

Lemma clamp01_range (v : R) : 0 <= Rmax 0 (Rmin 1 v) <= 1.
Proof.
  split.
  - apply Rmax_l.
  - apply Rmax_lub; [lra | apply Rmin_l].
Qed.

Lemma clamp01_id (v : R) : 0 <= v <= 1 -> clamp01 (Fin v) = Fin v.
Proof.
  intros [H0 H1]. rewrite clamp01_Fin. f_equal.
  rewrite (Rmin_right 1 v) by exact H1. now apply Rmax_right.
Qed.

(** ** The branch formulas on a finite local time *)

Lemma one_plus_exp_nonzero (u : R) : 1 + Rtrigo_def.exp u <> 0.
Proof. pose proof (exp_pos u). lra. Qed.

Lemma hypeRise_Fin (t : R) :
  hypeRise (Fin t) =
  Fin (0.1 + 0.9 * (1 - Rtrigo_def.exp (- 1.5 * t))
             * Rtrigo_def.exp (- ((t - 2.5) * (t - 2.5)) / 2)).
Proof.
  unfold hypeRise. cbn [pow sub neg add mul exp].
  rewrite div_Fin by lra. cbn [sub neg add mul exp]. reals_eq.
Qed.

Lemma hypeDecline_Fin (t : R) :
  hypeDecline (Fin t) = Fin (0.15 + 0.8 * Rtrigo_def.exp (- 0.8 * (t - 3))).
Proof.
  unfold hypeDecline. cbn [sub neg add mul exp]. reals_eq.
Qed.

Lemma hypeRecovery_Fin (t : R) :
  hypeRecovery (Fin t) =
  Fin (0.15 + 0.55 * (1 / (1 + Rtrigo_def.exp (- 5 * (Rmin 1 ((t - 10) / 8) - 0.5))))).
Proof.
  unfold hypeRecovery. cbn [sub neg add].
  rewrite div_Fin by lra. rewrite min_Fin. cbn [sub neg add mul exp].
  rewrite div_Fin by apply one_plus_exp_nonzero. cbn [add mul]. reals_eq.
Qed.

Lemma hypeValue_finite (t : R) : finite (hypeValue (Fin t)).
Proof.
  unfold hypeValue, finite.
  destruct (ltb (Fin t) (Fin 0)); [eexists; reflexivity |].
  destruct (leb (Fin t) (Fin 3)); [rewrite hypeRise_Fin; eexists; reflexivity |].
  destruct (leb (Fin t) (Fin 10)); [rewrite hypeDecline_Fin; eexists; reflexivity |].
  rewrite hypeRecovery_Fin; eexists; reflexivity.
Qed.

Lemma sCurveValue_Fin (dl t : R) :
  sCurveValue (Fin dl) (Fin t) =
  Fin (1 / (1 + Rtrigo_def.exp (- 0.5 * (t - 0.4 * dl)))).
Proof.
  unfold sCurveValue. cbn [sub neg add mul exp].
  rewrite div_Fin by apply one_plus_exp_nonzero. reals_eq.
Qed.

(** ** The time grid *)

Lemma sampleTime_Fin (dl ds : R) (points i : Z) :
  IZR points <> 0 ->
  sampleTime (Fin dl) points (Fin ds) i =
  Fin (IZR i / IZR points * (dl + Rabs ds) + ds).
Proof.
  intros Hp. unfold sampleTime, of_Z. cbn [abs add].
  rewrite div_Fin by exact Hp. reflexivity.
Qed.

Lemma length_indices (points : Z) :
  length (indices points) = Z.to_nat (points + 1).
Proof. unfold indices. now rewrite length_map, length_seq. Qed.

Lemma nth_error_indices (points : Z) (i : nat) :
  (i < Z.to_nat (points + 1))%nat ->
  nth_error (indices points) i = Some (Z.of_nat i).
Proof.
  intros Hi. unfold indices.
  rewrite nth_error_map, nth_error_seq.
  apply Nat.ltb_lt in Hi. rewrite Hi. reflexivity.
Qed.

Lemma nth_error_indices_inv (points : Z) (i : nat) (z : Z) :
  nth_error (indices points) i = Some z ->
  z = Z.of_nat i /\ (i < Z.to_nat (points + 1))%nat.
Proof.
  intros H.
  assert (Hi : (i < Z.to_nat (points + 1))%nat).
  { rewrite <- length_indices. apply nth_error_Some. congruence. }
  rewrite nth_error_indices in H by exact Hi. split; [congruence | exact Hi].
Qed.

Lemma length_generateHypeCycle (timeRange startTime : number) (points : Z) :
  length (generateHypeCycle timeRange points startTime) = Z.to_nat (points + 1).
Proof. unfold generateHypeCycle. now rewrite length_map, length_indices. Qed.

Lemma length_generateSCurve (timeRange startTime : number) (points : Z) :
  length (generateSCurve timeRange points startTime) = Z.to_nat (points + 1).
Proof. unfold generateSCurve. now rewrite length_map, length_indices. Qed.

Lemma nth_error_generateHypeCycle (timeRange startTime : number) (points : Z)
    (i : nat) (p : CurvePoint) :
  nth_error (generateHypeCycle timeRange points startTime) i = Some p ->
  (i < Z.to_nat (points + 1))%nat /\
  p = mkPoint (sampleTime timeRange points startTime (Z.of_nat i))
              (clamp01 (hypeValue (sampleTime timeRange points startTime (Z.of_nat i)))).
Proof.
  unfold generateHypeCycle. rewrite nth_error_map.
  destruct (nth_error (indices points) i) as [z |] eqn:E; [| discriminate].
  apply nth_error_indices_inv in E. destruct E as [-> Hi].
  cbn. intros H. split; [exact Hi | congruence].
Qed.

Lemma nth_error_generateSCurve (timeRange startTime : number) (points : Z)
    (i : nat) (p : CurvePoint) :
  nth_error (generateSCurve timeRange points startTime) i = Some p ->
  (i < Z.to_nat (points + 1))%nat /\
  p = mkPoint (sampleTime timeRange points startTime (Z.of_nat i))
              (sCurveValue timeRange
                 (sampleTime timeRange points startTime (Z.of_nat i))).
Proof.
  unfold generateSCurve. rewrite nth_error_map.
  destruct (nth_error (indices points) i) as [z |] eqn:E; [| discriminate].
  apply nth_error_indices_inv in E. destruct E as [-> Hi].
  cbn. intros H. split; [exact Hi | congruence].
Qed.

Lemma map_time_generateSCurve (timeRange startTime : number) (points : Z) :
  map time (generateSCurve timeRange points startTime) =
  map time (generateHypeCycle timeRange points startTime).
Proof.
  unfold generateSCurve, generateHypeCycle. rewrite !map_map. reflexivity.
Qed.

Lemma grid_step_increasing (dl ds : R) (points : Z) (i j : nat) :
  0 < dl -> (1 <= points)%Z -> (i < j)%nat ->
  IZR (Z.of_nat i) / IZR points * (dl + Rabs ds) + ds
  < IZR (Z.of_nat j) / IZR points * (dl + Rabs ds) + ds.
Proof.
  intros Hdl Hp Hij.
  assert (Hn : 0 < IZR points) by (apply IZR_lt; lia).
  assert (Hw : 0 < dl + Rabs ds) by (pose proof (Rabs_pos ds); lra).
  assert (Hz : IZR (Z.of_nat i) < IZR (Z.of_nat j)) by (apply IZR_lt; lia).
  apply Rplus_lt_compat_r, Rmult_lt_compat_r; [exact Hw |].
  unfold Rdiv. apply Rmult_lt_compat_r; [now apply Rinv_0_lt_compat | exact Hz].
Qed.

(** ** Properties of the hype-cycle generator *)

(** C1.  For a positive [domainLength] and [pointCount >= 1] the
    hype-cycle generator returns exactly [pointCount + 1] points; the time
    of the [i]-th point is
    [domainStart + (i / pointCount) * (domainLength + |domainStart|)], so
    the grid is uniform from [domainStart] to
    [domainStart + domainLength + |domainStart|]; times are strictly
    increasing along the curve; and every value is a real in [[0, 1]]. *)
Theorem generateHypeCycle_grid (domainStart domainLength : R) (pointCount : Z) :
  0 < domainLength -> (1 <= pointCount)%Z ->
  let curve := generateHypeCycle (Fin domainLength) pointCount (Fin domainStart) in
  Z.of_nat (length curve) = (pointCount + 1)%Z /\
  (forall i : Z, (0 <= i <= pointCount)%Z ->
     exists v : R,
       nth_error curve (Z.to_nat i) =
       Some (mkPoint
               (Fin (domainStart
                     + IZR i / IZR pointCount * (domainLength + Rabs domainStart)))
               (Fin v))
       /\ 0 <= v <= 1) /\
  (forall (i j : nat) (p q : CurvePoint),
     (i < j)%nat -> nth_error curve i = Some p -> nth_error curve j = Some q ->
     ltb (time p) (time q) = true).
Proof.
  intros Hdl Hp curve.
  assert (Hn : IZR pointCount <> 0).
  { apply not_eq_sym, Rlt_not_eq. change 0 with (IZR 0). apply IZR_lt. lia. }
  split; [| split].
  - unfold curve. rewrite length_generateHypeCycle. lia.
  - intros i Hi.
    destruct (nth_error curve (Z.to_nat i)) as [p |] eqn:E.
    + apply nth_error_generateHypeCycle in E. destruct E as [_ ->].
      rewrite Z2Nat.id by lia. rewrite sampleTime_Fin by exact Hn.
      destruct (hypeValue_finite
                  (IZR i / IZR pointCount * (domainLength + Rabs domainStart)
                   + domainStart)) as [w Hw].
      rewrite Hw, clamp01_Fin.
      exists (Rmax 0 (Rmin 1 w)). split; [| apply clamp01_range].
      do 3 f_equal. lra.
    + exfalso. apply nth_error_None in E. unfold curve in E.
      rewrite length_generateHypeCycle in E. lia.
  - intros i j p q Hij Ei Ej.
    apply nth_error_generateHypeCycle in Ei, Ej.
    destruct Ei as [_ ->], Ej as [_ ->]. cbn [time].
    rewrite !sampleTime_Fin by exact Hn.
    apply ltb_Fin_true. now apply grid_step_increasing.
Qed.

Lemma generateHypeCycle_grid_witness :
  let curve := generateHypeCycle (Fin 20) 4 (Fin (-10)) in
  Z.of_nat (length curve) = (4 + 1)%Z /\
  (forall i : Z, (0 <= i <= 4)%Z ->
     exists v : R,
       nth_error curve (Z.to_nat i) =
       Some (mkPoint (Fin (-10 + IZR i / IZR 4 * (20 + Rabs (-10)))) (Fin v))
       /\ 0 <= v <= 1) /\
  (forall (i j : nat) (p q : CurvePoint),
     (i < j)%nat -> nth_error curve i = Some p -> nth_error curve j = Some q ->
     ltb (time p) (time q) = true).
Proof.
  apply (generateHypeCycle_grid (-10) 20 4); [lra | lia].
Defined.

(** ** Properties of the adoption-curve generator *)

Lemma logistic_open_unit (u : R) : 0 < 1 / (1 + Rtrigo_def.exp u) < 1.
Proof.
  pose proof (exp_pos u) as He.
  assert (Hd : 0 < / (1 + Rtrigo_def.exp u)) by (apply Rinv_0_lt_compat; lra).
  assert (Hm : / (1 + Rtrigo_def.exp u) * (1 + Rtrigo_def.exp u) = 1)
    by (apply Rinv_l; lra).
  unfold Rdiv. rewrite Rmult_1_l. split; [exact Hd | nra].
Qed.

(** C9.  For a positive [domainLength] and [pointCount >= 1], every point
    of the adoption curve sits at a real time [t] and carries exactly the
    logistic value [1 / (1 + e^(-0.5 * (t - 0.4 * domainLength)))]: the
    midpoint depends on [domainLength] only, no clamp is applied, and the
    value lies strictly between 0 and 1. *)
Theorem generateSCurve_logistic (domainStart domainLength : R) (pointCount : Z) :
  0 < domainLength -> (1 <= pointCount)%Z ->
  forall p : CurvePoint,
    In p (generateSCurve (Fin domainLength) pointCount (Fin domainStart)) ->
    exists t v : R,
      p = mkPoint (Fin t) (Fin v)
      /\ v = 1 / (1 + Rtrigo_def.exp (- 0.5 * (t - 0.4 * domainLength)))
      /\ 0 < v < 1.
Proof.
  intros Hdl Hp p Hin.
  assert (Hn : IZR pointCount <> 0).
  { apply not_eq_sym, Rlt_not_eq. change 0 with (IZR 0). apply IZR_lt. lia. }
  apply In_nth_error in Hin. destruct Hin as [i Hi].
  apply nth_error_generateSCurve in Hi. destruct Hi as [_ ->].
  rewrite sampleTime_Fin by exact Hn. rewrite sCurveValue_Fin.
  eexists; eexists. split; [reflexivity |]. split; [reflexivity |].
  apply logistic_open_unit.
Qed.

Lemma generateSCurve_logistic_witness :
  let t0 := sampleTime (Fin 20) 4 (Fin (-10)) 0 in
  exists t v : R,
    mkPoint t0 (sCurveValue (Fin 20) t0) = mkPoint (Fin t) (Fin v)
    /\ v = 1 / (1 + Rtrigo_def.exp (- 0.5 * (t - 0.4 * 20)))
    /\ 0 < v < 1.
Proof.
  apply (generateSCurve_logistic (-10) 20 4); [lra | lia |].
  unfold generateSCurve. apply in_map_iff. exists 0%Z.
  split; [reflexivity | left; reflexivity].
Defined.

(** ** The degenerate call with [pointCount = 0] *)

Lemma sampleTime_zero_points (timeRange startTime : number) :
  sampleTime timeRange 0 startTime 0 = NaN.
Proof.
  unfold sampleTime, of_Z. simpl.
  destruct (Req_dec_T 0 0) as [_ | Hne]; [| now elim Hne].
  unfold signed_inf.
  destruct (Rlt_dec 0 0) as [H | _]; [lra |].
  destruct (add timeRange (abs startTime)); reflexivity.
Qed.

Lemma indices_zero : indices 0 = [0%Z].
Proof. reflexivity. Qed.

(** C6, as the code has it.  With [pointCount = 0] both generators return
    a single point and raise nothing, but the only index is [i = 0] and
    [0 / 0] is NaN: the time of that point and its value are both NaN,
    whatever [domainStart] and [domainLength] are. *)
Theorem generate_zero_points (timeRange startTime : number) :
  generateHypeCycle timeRange 0 startTime = [mkPoint NaN NaN]
  /\ generateSCurve timeRange 0 startTime = [mkPoint NaN NaN].
Proof.
  unfold generateHypeCycle, generateSCurve.
  rewrite indices_zero. cbn [map]. rewrite sampleTime_zero_points. split.
  - reflexivity.
  - unfold sCurveValue. cbn [sub neg add].
    destruct (mul timeRange (Fin 0.4)); reflexivity.
Qed.

(** C6 fails as stated: at [domainLength = 20], [domainStart = -10] and
    [pointCount = 0] the single point is not at time [-10] and its value
    is not a real. *)
Lemma generate_zero_points_not_at_start :
  generateHypeCycle (Fin 20) 0 (Fin (-10)) = [mkPoint NaN NaN]
  /\ generateSCurve (Fin 20) 0 (Fin (-10)) = [mkPoint NaN NaN]
  /\ ~ (exists v : R,
          generateHypeCycle (Fin 20) 0 (Fin (-10)) = [mkPoint (Fin (-10)) (Fin v)])
  /\ ~ (exists v : R,
          generateSCurve (Fin 20) 0 (Fin (-10)) = [mkPoint (Fin (-10)) (Fin v)]).
Proof.
  assert (H : generateHypeCycle (Fin 20) 0 (Fin (-10)) = [mkPoint NaN NaN]
              /\ generateSCurve (Fin 20) 0 (Fin (-10)) = [mkPoint NaN NaN]).
  { unfold generateHypeCycle, generateSCurve.
    rewrite indices_zero. cbn [map]. rewrite sampleTime_zero_points.
    split; reflexivity. }
  destruct H as [Hh Hs]. repeat split; trivial.
  - intros [v Hv]. rewrite Hh in Hv. discriminate.
  - intros [v Hv]. rewrite Hs in Hv. discriminate.
Qed.

(** ** The branch boundaries of the hype-cycle model *)

Lemma exp_neg_le (x : R) : 0 <= x -> Rtrigo_def.exp (- x) * (1 + x) <= 1.
Proof.
  intros Hx.
  pose proof (exp_pos (- x)) as Hpos.
  pose proof (exp_ineq1_le x) as Hle.
  assert (Hinv : Rtrigo_def.exp (- x) * Rtrigo_def.exp x = 1).
  { rewrite <- exp_plus. replace (- x + x) with 0 by lra. apply exp_0. }
  rewrite <- Hinv. apply Rmult_le_compat_l; lra.
Qed.

(** Which branch the code takes exactly at a boundary. *)
Lemma hypeValue_at_boundaries :
  hypeValue (Fin 0) = hypeRise (Fin 0)
  /\ hypeValue (Fin 3) = hypeRise (Fin 3)
  /\ hypeValue (Fin 10) = hypeDecline (Fin 10).
Proof.
  unfold hypeValue.
  rewrite (ltb_Fin_false 0 0), (leb_Fin_true 0 3) by lra.
  rewrite (ltb_Fin_false 3 0), (leb_Fin_true 3 3) by lra.
  rewrite (ltb_Fin_false 10 0), (leb_Fin_false 10 3), (leb_Fin_true 10 10) by lra.
  auto.
Qed.

Lemma hypeRise_at_0 : hypeRise (Fin 0) = Fin 0.1.
Proof.
  rewrite hypeRise_Fin. f_equal.
  replace (- 1.5 * 0) with 0 by lra. rewrite exp_0. lra.
Qed.

Lemma hypeDecline_at_3 : hypeDecline (Fin 3) = Fin 0.95.
Proof.
  rewrite hypeDecline_Fin. f_equal.
  replace (- 0.8 * (3 - 3)) with 0 by lra. rewrite exp_0. lra.
Qed.

Lemma hypeRise_at_3_below_peak :
  exists l : R, hypeRise (Fin 3) = Fin l /\ l < 0.95.
Proof.
  rewrite hypeRise_Fin. eexists. split; [reflexivity |].
  set (a := Rtrigo_def.exp (- 1.5 * 3)).
  set (b := Rtrigo_def.exp (- ((3 - 2.5) * (3 - 2.5)) / 2)).
  assert (Ha : 0 < a) by apply exp_pos.
  assert (Hb : 0 < b) by apply exp_pos.
  assert (Hc : b * (1 + 1 / 8) <= 1).
  { replace b with (Rtrigo_def.exp (- (1 / 8))) by (apply f_equal; lra).
    apply exp_neg_le. lra. }
  nra.
Qed.

Lemma hypeRecovery_at_10_above_decline :
  exists l r : R,
    hypeDecline (Fin 10) = Fin l /\ hypeRecovery (Fin 10) = Fin r /\ l < r.
Proof.
  rewrite hypeDecline_Fin, hypeRecovery_Fin.
  eexists; eexists. split; [reflexivity |]. split; [reflexivity |].
  set (E := Rtrigo_def.exp (- 5 * (Rmin 1 ((10 - 10) / 8) - 0.5))).
  set (F := Rtrigo_def.exp (- 0.8 * (10 - 3))).
  assert (HE : E = Rtrigo_def.exp (5 / 2)).
  { unfold E. apply f_equal. rewrite Rmin_right; lra. }
  assert (HE1 : 1 <= E) by (pose proof (exp_ineq1_le (5 / 2)); lra).
  assert (HF : 0 < F) by apply exp_pos.
  assert (HEF : F * E = Rtrigo_def.exp (- (31 / 10))).
  { rewrite HE. unfold F. rewrite <- exp_plus. apply f_equal. lra. }
  assert (HG : F * E * (1 + 31 / 10) <= 1).
  { rewrite HEF. apply exp_neg_le. lra. }
  assert (Hkey : 0.8 * F * (1 + E) < 0.55) by nra.
  assert (Hm : / (1 + E) * (1 + E) = 1) by (apply Rinv_l; lra).
  unfold Rdiv. rewrite Rmult_1_l.
  apply Rplus_lt_compat_l.
  apply Rmult_lt_reg_r with (1 + E); [lra |].
  replace (0.55 * / (1 + E) * (1 + E)) with (0.55 * (/ (1 + E) * (1 + E)))
    by (symmetry; apply Rmult_assoc).
  rewrite Hm. lra.
Qed.

(** C7 fails as stated: at the boundary [t = 0] the formula of the branch
    [t < 0] gives 0.05 and the formula of the branch [0 <= t <= 3] gives
    0.1. *)
Lemma hype_branches_disagree_at_0 :
  hypeBaseline = Fin 0.05
  /\ hypeRise (Fin 0) = Fin 0.1
  /\ hypeBaseline <> hypeRise (Fin 0).
Proof.
  split; [reflexivity |]. split; [apply hypeRise_at_0 |].
  rewrite hypeRise_at_0. unfold hypeBaseline. intros H.
  injection H as H. lra.
Qed.

(** C7, as the code has it.  The piecewise model jumps at each of its
    three branch boundaries: at [t = 0] from 0.05 to 0.1; at [t = 3] from
    a value below 0.95 up to 0.95; at [t = 10] from the value of the decay
    formula up to the strictly larger value of the recovery formula.  The
    code is at the baseline for every [t < 0] and evaluates the rise
    formula at [t = 0] and [t = 3] and the decay formula at [t = 10]. *)
Theorem hype_branches_jump :
  (hypeBaseline = Fin 0.05 /\ hypeRise (Fin 0) = Fin 0.1
   /\ (forall t : R, t < 0 -> hypeValue (Fin t) = hypeBaseline)
   /\ hypeValue (Fin 0) = hypeRise (Fin 0))
  /\ (exists l : R,
        hypeRise (Fin 3) = Fin l /\ hypeDecline (Fin 3) = Fin 0.95 /\ l < 0.95
        /\ hypeValue (Fin 3) = hypeRise (Fin 3))
  /\ (exists l r : R,
        hypeDecline (Fin 10) = Fin l /\ hypeRecovery (Fin 10) = Fin r /\ l < r
        /\ hypeValue (Fin 10) = hypeDecline (Fin 10)).
Proof.
  destruct hypeValue_at_boundaries as (H0 & H3 & H10).
  split; [| split].
  - split; [reflexivity |]. split; [apply hypeRise_at_0 |].
    split; [| exact H0].
    intros t Ht. unfold hypeValue. now rewrite ltb_Fin_true.
  - destruct hypeRise_at_3_below_peak as (l & Hl & Hlt).
    exists l. repeat split; trivial. apply hypeDecline_at_3.
  - destruct hypeRecovery_at_10_above_decline as (l & r & Hl & Hr & Hlt).
    exists l, r. repeat split; trivial.
Qed.

(** ** Blending *)

Lemma blendCurves_cons (p q : CurvePoint) (c1 c2 : list CurvePoint) (r : number) :
  blendCurves (p :: c1) (q :: c2) r = blendPoint r (p, q) :: blendCurves c1 c2 r.
Proof. reflexivity. Qed.

Lemma length_blendCurves (c1 c2 : list CurvePoint) (r : number) :
  length (blendCurves c1 c2 r) = Nat.min (length c1) (length c2).
Proof. unfold blendCurves. now rewrite length_map, length_combine. Qed.

Lemma map_time_blendCurves (c1 c2 : list CurvePoint) (r : number) :
  length c1 = length c2 ->
  map time (blendCurves c1 c2 r) = map time c1.
Proof.
  revert c2. induction c1 as [| p c1 IH]; intros [| q c2] Hlen;
    try discriminate; [reflexivity |].
  rewrite blendCurves_cons. cbn [map blendPoint time].
  f_equal. apply IH. now injection Hlen.
Qed.

Lemma blendCurves_half (la lb : list (R * R)) :
  blendCurves (curveOf la) (curveOf lb) (Fin 0.5) = curveOf (average la lb).
Proof.
  revert lb. induction la as [| [t a] la IH]; intros [| [t' b] lb];
    try reflexivity.
  change (curveOf ((t, a) :: la)) with (pt (t, a) :: curveOf la).
  change (curveOf ((t', b) :: lb)) with (pt (t', b) :: curveOf lb).
  rewrite blendCurves_cons, IH.
  change (average ((t, a) :: la) ((t', b) :: lb))
    with ((t, (a + b) / 2) :: average la lb).
  change (curveOf ((t, (a + b) / 2) :: average la lb))
    with (pt (t, (a + b) / 2) :: curveOf (average la lb)).
  f_equal. unfold blendPoint, pt. cbn [time value fst snd sub neg add mul].
  f_equal. f_equal. lra.
Qed.

(** C5.  For real-valued curves [A] and [B] with the same time at every
    index (hence of equal length), blending with ratio 0 returns [A], with
    ratio 1 returns [B], and with ratio 0.5 returns the curve on [A]'s
    times whose value at each index is [(A[i].value + B[i].value) / 2]. *)
Theorem blendCurves_endpoints (la lb : list (R * R)) :
  map fst la = map fst lb ->
  blendCurves (curveOf la) (curveOf lb) (Fin 0) = curveOf la
  /\ blendCurves (curveOf la) (curveOf lb) (Fin 1) = curveOf lb
  /\ blendCurves (curveOf la) (curveOf lb) (Fin 0.5) = curveOf (average la lb).
Proof.
  intros Htimes. split; [| split; [| apply blendCurves_half]].
  - revert lb Htimes. induction la as [| [t a] la IH]; intros [| [t' b] lb] H;
      try discriminate; [reflexivity |].
    injection H as _ H.
    change (curveOf ((t, a) :: la)) with (pt (t, a) :: curveOf la).
    change (curveOf ((t', b) :: lb)) with (pt (t', b) :: curveOf lb).
    rewrite blendCurves_cons, (IH lb H). f_equal.
    unfold blendPoint, pt. cbn [time value fst snd sub neg add mul].
    f_equal. f_equal. lra.
  - revert lb Htimes. induction la as [| [t a] la IH]; intros [| [t' b] lb] H;
      try discriminate; [reflexivity |].
    injection H as Ht H. cbn in Ht. subst t'.
    change (curveOf ((t, a) :: la)) with (pt (t, a) :: curveOf la).
    change (curveOf ((t, b) :: lb)) with (pt (t, b) :: curveOf lb).
    rewrite blendCurves_cons, (IH lb H). f_equal.
    unfold blendPoint, pt. cbn [time value fst snd sub neg add mul].
    f_equal. f_equal. lra.
Qed.

Lemma blendCurves_endpoints_witness :
  let la := [(0, 0.2); (1, 0.6)] in
  let lb := [(0, 0.4); (1, 1)] in
  blendCurves (curveOf la) (curveOf lb) (Fin 0) = curveOf la
  /\ blendCurves (curveOf la) (curveOf lb) (Fin 1) = curveOf lb
  /\ blendCurves (curveOf la) (curveOf lb) (Fin 0.5) = curveOf (average la lb).
Proof.
  apply (blendCurves_endpoints [(0, 0.2); (1, 0.6)] [(0, 0.4); (1, 1)]).
  reflexivity.
Defined.

(** ** Resampling: general facts *)

Section MapM.

Context {A B : Type} (f : A -> result B).

Lemma mapM_Forall2 (l : list A) (bs : list B) :
  mapM f l = Ok bs -> Forall2 (fun a b => f a = Ok b) l bs.
Proof.
  revert bs. induction l as [| a l IH]; intros bs H; cbn in H.
  - injection H as <-. constructor.
  - destruct (f a) as [b |] eqn:Ea; cbn in H; [| discriminate].
    destruct (mapM f l) as [bs' |]; cbn in H; [| discriminate].
    injection H as <-. constructor; [exact Ea | now apply IH].
Qed.

Lemma mapM_total (l : list A) :
  (forall a, In a l -> exists b, f a = Ok b) ->
  exists bs, mapM f l = Ok bs.
Proof.
  induction l as [| a l IH]; intros H; cbn.
  - now exists [].
  - destruct (H a (or_introl eq_refl)) as [b ->].
    destruct IH as [bs ->]; [intros a' Ha'; apply H; now right |].
    cbn. now exists (b :: bs).
Qed.

Lemma mapM_map_Ok {C : Type} (g : C -> A) (h : C -> B) (l : list C) :
  (forall c, In c l -> f (g c) = Ok (h c)) ->
  mapM f (map g l) = Ok (map h l).
Proof.
  induction l as [| c l IH]; intros H; cbn; [reflexivity |].
  rewrite (H c (or_introl eq_refl)). cbn.
  rewrite IH by (intros c' Hc'; apply H; now right). reflexivity.
Qed.

End MapM.

Lemma time_interpolate (beforePoint afterPoint : CurvePoint) (t : number) :
  time (interpolate beforePoint afterPoint t) = t.
Proof.
  unfold interpolate.
  destruct (strict_eq (time beforePoint) (time afterPoint)); reflexivity.
Qed.

Lemma scan_In (m : list CurvePoint) (t : number) (p q : CurvePoint) :
  scan m t = Some (p, q) -> In p m /\ In q m.
Proof.
  induction m as [| a m IH]; [discriminate |].
  destruct m as [| b m]; [discriminate |].
  cbn [scan].
  destruct (leb (time a) t && geb (time b) t).
  - intros H. injection H as <- <-. split; [now left | right; now left].
  - intros H. destruct (IH H) as [Hp Hq]. split; now right.
Qed.

Lemma nth_error_last_Some {A : Type} (m : list A) :
  m <> [] -> exists a, nth_error m (length m - 1) = Some a /\ In a m.
Proof.
  intros Hm.
  destruct (nth_error m (length m - 1)) as [a |] eqn:E.
  - exists a. split; [reflexivity | now apply nth_error_In in E].
  - apply nth_error_None in E. destruct m; [contradiction | cbn in E; lia].
Qed.

Lemma bracket_nonempty (m : list CurvePoint) (t : number) :
  m <> [] ->
  exists beforePoint afterPoint,
    bracket m t = Some (beforePoint, afterPoint)
    /\ In beforePoint m /\ In afterPoint m.
Proof.
  intros Hm. unfold bracket.
  destruct (scan m t) as [[p q] |] eqn:E.
  - exists p, q. split; [reflexivity | now apply scan_In in E].
  - destruct (nth_error_last_Some m Hm) as (a & -> & Ha).
    destruct m as [| b m]; [contradiction |]. cbn [nth_error].
    exists b, a. split; [reflexivity |]. split; [now left | exact Ha].
Qed.

Lemma bracket_empty (t : number) : bracket [] t = None.
Proof. reflexivity. Qed.

Lemma offsetCurveMap_nonempty (curve : list CurvePoint) (offset : number) :
  curve <> [] -> offsetCurveMap curve offset <> [].
Proof. destruct curve; [contradiction | discriminate]. Qed.

Lemma resampleAt_time (m : list CurvePoint) (t : number) (p : CurvePoint) :
  resampleAt m t = Ok p -> time p = t.
Proof.
  unfold resampleAt. destruct (bracket m t) as [[b a] |]; [| discriminate].
  intros H. injection H as <-. apply time_interpolate.
Qed.

Lemma offsetCurve_times (curve : list CurvePoint) (offset : number)
    (originalTimes : list number) (out : list CurvePoint) :
  offsetCurve curve offset originalTimes = Ok out ->
  map time out = originalTimes.
Proof.
  unfold offsetCurve. intros H. apply mapM_Forall2 in H.
  induction H as [| t p ts ps Hp _ IH]; [reflexivity |].
  cbn [map]. f_equal; [now apply resampleAt_time in Hp | exact IH].
Qed.

Lemma offsetCurve_returns (curve : list CurvePoint) (offset : number)
    (originalTimes : list number) :
  curve <> [] -> exists out, offsetCurve curve offset originalTimes = Ok out.
Proof.
  intros Hc. unfold offsetCurve. apply mapM_total. intros t _.
  unfold resampleAt.
  destruct (bracket_nonempty (offsetCurveMap curve offset) t
              (offsetCurveMap_nonempty curve offset Hc)) as (b & a & -> & _).
  eexists; reflexivity.
Qed.

(** ** The orchestrator: alignment of the three curves *)

Lemma generateSCurve_nonempty (timeRange startTime : number) (points : Z) :
  (0 <= points)%Z -> generateSCurve timeRange points startTime <> [].
Proof.
  intros Hp Hnil. apply (f_equal (@length _)) in Hnil.
  rewrite length_generateSCurve in Hnil. cbn in Hnil. lia.
Qed.

(** C10.  For a positive [domainLength] and [pointCount >= 1], whatever the
    offset and the blend ratio are (any number, finite or not), the
    orchestrator returns three curves of length [pointCount + 1], the first
    being the hype curve, and at every index the time of the resampled
    adoption curve and the time of the blend are the time of the hype
    curve. *)
Theorem generateCombinedCurve_aligned (timeOffset blendRatio : number)
    (domainLength domainStart : R) (pointCount : Z) :
  0 < domainLength -> (1 <= pointCount)%Z ->
  exists r : Combined,
    generateCombinedCurve timeOffset blendRatio (Fin domainLength) pointCount
                          (Fin domainStart) = Ok r
    /\ hypeCurve r = generateHypeCycle (Fin domainLength) pointCount (Fin domainStart)
    /\ Z.of_nat (length (hypeCurve r)) = (pointCount + 1)%Z
    /\ Z.of_nat (length (sCurve r)) = (pointCount + 1)%Z
    /\ Z.of_nat (length (combinedCurve r)) = (pointCount + 1)%Z
    /\ map time (sCurve r) = map time (hypeCurve r)
    /\ map time (combinedCurve r) = map time (hypeCurve r).
Proof.
  intros _ Hp. unfold generateCombinedCurve.
  set (hype := generateHypeCycle (Fin domainLength) pointCount (Fin domainStart)).
  set (orig := generateSCurve (Fin domainLength) pointCount (Fin domainStart)).
  destruct (offsetCurve_returns orig timeOffset (map time hype)) as [s Hs].
  { apply generateSCurve_nonempty. lia. }
  rewrite Hs. cbn [bind]. eexists. split; [reflexivity |].
  cbn [hypeCurve sCurve combinedCurve].
  pose proof (offsetCurve_times _ _ _ _ Hs) as Ht.
  assert (Hlh : length hype = Z.to_nat (pointCount + 1))
    by apply length_generateHypeCycle.
  assert (Hls : length s = length hype).
  { rewrite <- (length_map time s), Ht. apply length_map. }
  repeat split.
  - lia.
  - lia.
  - rewrite length_blendCurves, Hls, Nat.min_id. lia.
  - exact Ht.
  - apply map_time_blendCurves. now symmetry.
Qed.

Lemma generateCombinedCurve_aligned_witness :
  exists r : Combined,
    generateCombinedCurve (Fin 1.5) (Fin 0.25) (Fin 20) 100 (Fin (-10)) = Ok r
    /\ hypeCurve r = generateHypeCycle (Fin 20) 100 (Fin (-10))
    /\ Z.of_nat (length (hypeCurve r)) = (100 + 1)%Z
    /\ Z.of_nat (length (sCurve r)) = (100 + 1)%Z
    /\ Z.of_nat (length (combinedCurve r)) = (100 + 1)%Z
    /\ map time (sCurve r) = map time (hypeCurve r)
    /\ map time (combinedCurve r) = map time (hypeCurve r).
Proof.
  apply (generateCombinedCurve_aligned (Fin 1.5) (Fin 0.25) 20 (-10) 100);
    [lra | lia].
Defined.

(** ** Resampling real-valued curves *)

Lemma offsetCurveMap_curveOf (l : list (R * R)) (offset : R) :
  offsetCurveMap (curveOf l) (Fin offset) = curveOf (shifted offset l).
Proof.
  unfold offsetCurveMap, curveOf, shifted. rewrite !map_map. reflexivity.
Qed.

Lemma shifted_zero (l : list (R * R)) : shifted 0 l = l.
Proof.
  unfold shifted. induction l as [| [t v] l IH]; [reflexivity |].
  cbn [map fst snd]. rewrite IH. f_equal. f_equal. lra.
Qed.

Lemma In_curveOf (l : list (R * R)) (p : CurvePoint) :
  In p (curveOf l) -> exists tv, p = pt tv /\ In tv l.
Proof.
  unfold curveOf. rewrite in_map_iff. intros (tv & <- & H). now exists tv.
Qed.

Lemma curveOf_nonempty (l : list (R * R)) : l <> [] -> curveOf l <> [].
Proof. destruct l; [contradiction | discriminate]. Qed.

(** The guard of the interpolation, for arbitrary numbers: when the two
    times are not strictly equal their difference is not zero. *)
Lemma strict_eq_false_sub_nonzero (a b : number) :
  strict_eq a b = false -> sub b a <> Fin 0.
Proof.
  destruct a as [x | | |], b as [y | | |]; cbn; try discriminate.
  destruct (Req_dec_T x y) as [| Hne]; [discriminate |].
  intros _ H. injection H as H. apply Hne. lra.
Qed.

Lemma interpolate_same_time (tb vb ta va tau : R) :
  tb = ta ->
  interpolate (pt (tb, vb)) (pt (ta, va)) (Fin tau) = pt (tau, vb).
Proof.
  intros H. unfold interpolate, pt. cbn [time value fst snd].
  now rewrite strict_eq_Fin_true.
Qed.

Lemma interpolate_distinct_times (tb vb ta va tau : R) :
  tb <> ta ->
  interpolate (pt (tb, vb)) (pt (ta, va)) (Fin tau) =
  pt (tau, Rmax 0 (Rmin 1 (vb + (tau - tb) / (ta - tb) * (va - vb)))).
Proof.
  intros H. unfold interpolate, pt. cbn [time value fst snd].
  rewrite strict_eq_Fin_false by exact H. cbn [sub neg add].
  rewrite div_Fin by lra. cbn [add mul]. rewrite clamp01_Fin.
  reflexivity.
Qed.

Lemma bracket_curveOf (l : list (R * R)) (tau : R) :
  l <> [] ->
  exists b a : R * R,
    bracket (curveOf l) (Fin tau) = Some (pt b, pt a) /\ In b l /\ In a l.
Proof.
  intros Hl.
  destruct (bracket_nonempty (curveOf l) (Fin tau) (curveOf_nonempty l Hl))
    as (bp & ap & E & Hb & Ha).
  apply In_curveOf in Hb, Ha.
  destruct Hb as (b & -> & Hb), Ha as (a & -> & Ha).
  now exists b, a.
Qed.

Lemma resampleAt_guarded (l : list (R * R)) (tau : R) :
  l <> [] ->
  exists p, resampleAt (curveOf l) (Fin tau) = Ok p
            /\ guarded_interpolation (curveOf l) tau p.
Proof.
  intros Hl.
  destruct (bracket_curveOf l tau Hl) as ([tb vb] & [ta va] & E & _ & _).
  unfold resampleAt. rewrite E. eexists. split; [reflexivity |].
  exists tb, vb, ta, va. split; [exact E |].
  split; [apply time_interpolate |].
  destruct (Req_dec_T tb ta) as [Heq | Hne].
  - left. split; [exact Heq |]. now rewrite interpolate_same_time.
  - right. exists (ta + - tb). split; [reflexivity |]. split; [lra |].
    unfold interpolate, pt. cbn [time value fst snd].
    rewrite strict_eq_Fin_false by exact Hne.
    cbn [time value sub neg add]. split; [reflexivity |].
    rewrite div_Fin by lra. cbn [add mul]. rewrite clamp01_Fin.
    eexists; reflexivity.
Qed.

(** C8 fails as stated: on an empty curve the callback reads
    [beforePoint.time] of [undefined], so the call throws as soon as there
    is one reference time. *)
Lemma offsetCurve_empty_curve_throws :
  offsetCurve [] (Fin 0) [Fin 0] = Throw TypeError.
Proof. reflexivity. Qed.

(** C8, as the code has it.  On every non-empty real-valued curve, with a
    real offset and real reference times, the resampler returns one point
    per reference time and never divides by zero: for the pair it selects,
    either the two times are identical and the point carries the value of
    [beforePoint] unchanged, or the divisor
    [afterPoint.time - beforePoint.time] is a nonzero real and the point
    carries the clamped interpolation, a real. *)
Theorem offsetCurve_total (l : list (R * R)) (offset : R) (taus : list R) :
  l <> [] ->
  exists out : list CurvePoint,
    offsetCurve (curveOf l) (Fin offset) (map Fin taus) = Ok out
    /\ Forall2 (guarded_interpolation (offsetCurveMap (curveOf l) (Fin offset)))
               taus out.
Proof.
  intros Hl. unfold offsetCurve. rewrite offsetCurveMap_curveOf.
  assert (Hs : shifted offset l <> []) by (destruct l; [contradiction | discriminate]).
  induction taus as [| tau taus IH]; cbn [map mapM].
  - exists []. split; [reflexivity | constructor].
  - destruct (resampleAt_guarded (shifted offset l) tau Hs) as (p & -> & Hp).
    destruct IH as (out & -> & Hout). cbn [bind].
    exists (p :: out). split; [reflexivity | now constructor].
Qed.

Lemma offsetCurve_total_witness :
  exists out : list CurvePoint,
    offsetCurve (curveOf [(0, 0.5); (0, 0.7); (1, 1)]) (Fin 2)
                (map Fin [2; 2.5; 9]) = Ok out
    /\ Forall2 (guarded_interpolation
                  (offsetCurveMap (curveOf [(0, 0.5); (0, 0.7); (1, 1)]) (Fin 2)))
               [2; 2.5; 9] out.
Proof.
  apply (offsetCurve_total [(0, 0.5); (0, 0.7); (1, 1)] 2 [2; 2.5; 9]).
  discriminate.
Defined.

(** ** Resampling a curve with strictly increasing times *)

Lemma increasing_tail (t : R) (ts : list R) :
  increasing (t :: ts) -> increasing ts.
Proof. intros H. now inversion H. Qed.

Lemma increasing_head (t : R) (ts : list R) :
  increasing (t :: ts) -> Forall (Rlt t) ts.
Proof. intros H. now inversion H. Qed.

Lemma curveOf_cons (p : R * R) (l : list (R * R)) :
  curveOf (p :: l) = pt p :: curveOf l.
Proof. reflexivity. Qed.

Lemma scan_hit (p q : R * R) (l : list (R * R)) (tau : R) :
  fst p <= tau -> tau <= fst q ->
  scan (curveOf (p :: q :: l)) (Fin tau) = Some (pt p, pt q).
Proof.
  intros Hp Hq. rewrite !curveOf_cons. cbn [scan pt time].
  now rewrite leb_Fin_true, geb_Fin_true.
Qed.

Lemma scan_skip_after (p q : R * R) (l : list (R * R)) (tau : R) :
  fst q < tau ->
  scan (curveOf (p :: q :: l)) (Fin tau) = scan (curveOf (q :: l)) (Fin tau).
Proof.
  intros Hq. rewrite !curveOf_cons. cbn [scan pt time].
  rewrite (geb_Fin_false (fst q) tau) by exact Hq.
  now rewrite andb_false_r.
Qed.

Lemma scan_skip_before (p q : R * R) (l : list (R * R)) (tau : R) :
  tau < fst p ->
  scan (curveOf (p :: q :: l)) (Fin tau) = scan (curveOf (q :: l)) (Fin tau).
Proof.
  intros Hp. rewrite !curveOf_cons. cbn [scan pt time].
  now rewrite (leb_Fin_false (fst p) tau) by exact Hp.
Qed.

(** At the time of a point that is not the first, the scan stops on the
    pair that ends in that point. *)
Lemma scan_own_time (rest : list (R * R)) :
  forall p : R * R,
    increasing (map fst (p :: rest)) ->
    forall q, In q rest ->
    exists p', scan (curveOf (p :: rest)) (Fin (fst q)) = Some (pt p', pt q)
               /\ fst p' < fst q.
Proof.
  induction rest as [| a rest IH]; intros p Hs q Hq; [contradiction |].
  pose proof (increasing_head _ _ Hs) as Hhd.
  pose proof (increasing_tail _ _ Hs) as Htl.
  destruct Hq as [-> | Hq].
  - exists p. inversion Hhd; subst.
    split; [apply scan_hit; lra | assumption].
  - assert (Haq : fst a < fst q).
    { apply increasing_head in Htl. rewrite Forall_forall in Htl.
      apply Htl. now apply in_map. }
    rewrite scan_skip_after by exact Haq. now apply IH.
Qed.

Lemma scan_none_before (l : list (R * R)) (tau : R) :
  Forall (fun tv => tau < fst tv) l -> scan (curveOf l) (Fin tau) = None.
Proof.
  induction 1 as [| p l Hp Hl IH]; [reflexivity |].
  destruct l as [| q l]; [reflexivity |].
  rewrite scan_skip_before by exact Hp. exact IH.
Qed.

Lemma scan_none_after (l : list (R * R)) (tau : R) :
  Forall (fun tv => fst tv < tau) l -> scan (curveOf l) (Fin tau) = None.
Proof.
  induction 1 as [| p l Hp Hl IH]; [reflexivity |].
  destruct l as [| q l]; [reflexivity |].
  inversion Hl; subst. rewrite scan_skip_after by assumption. exact IH.
Qed.

Lemma nth_error_last {A : Type} (l : list A) (a d : A) :
  nth_error (a :: l) (length (a :: l) - 1) = Some (last (a :: l) d).
Proof.
  revert a. induction l as [| b l IH]; intros a; [reflexivity |].
  specialize (IH b). cbn [length Nat.sub] in IH |- *.
  rewrite Nat.sub_0_r in IH. cbn [nth_error]. rewrite IH.
  reflexivity.
Qed.

Lemma increasing_below_last (l : list (R * R)) (p d : R * R) :
  increasing (map fst (p :: l)) ->
  Forall (fun tv => fst tv <= fst (last (p :: l) d)) (p :: l).
Proof.
  revert p. induction l as [| q l IH]; intros p Hs.
  - constructor; [cbn; lra | constructor].
  - pose proof (IH q (increasing_tail _ _ Hs)) as Hq.
    change (last (p :: q :: l) d) with (last (q :: l) d).
    constructor; [| exact Hq].
    apply increasing_head in Hs. inversion Hs; subst.
    inversion Hq; subst. lra.
Qed.

(** Outside the range of the curve no pair brackets the reference time and
    the defaults survive: the first and the last point. *)
Lemma bracket_outside (first : R * R) (rest : list (R * R)) (tau : R) :
  increasing (map fst (first :: rest)) ->
  tau < fst first \/ fst (last (first :: rest) first) < tau ->
  bracket (curveOf (first :: rest)) (Fin tau) =
  Some (pt first, pt (last (first :: rest) first)).
Proof.
  intros Hs Hout. unfold bracket.
  assert (Hscan : scan (curveOf (first :: rest)) (Fin tau) = None).
  { destruct Hout as [Hb | Ha].
    - apply scan_none_before. constructor; [exact Hb |].
      apply increasing_head in Hs. rewrite Forall_forall in Hs |- *.
      intros tv Htv. specialize (Hs (fst tv) (in_map fst _ _ Htv)). lra.
    - apply scan_none_after.
      pose proof (increasing_below_last rest first first Hs) as Hle.
      rewrite Forall_forall in Hle |- *.
      intros tv Htv. specialize (Hle tv Htv). lra. }
  rewrite Hscan.
  assert (Hlast : nth_error (curveOf (first :: rest))
                            (length (curveOf (first :: rest)) - 1)
                  = Some (pt (last (first :: rest) first))).
  { unfold curveOf. rewrite length_map, nth_error_map.
    rewrite (nth_error_last rest first first). reflexivity. }
  rewrite Hlast. reflexivity.
Qed.

Lemma last_shifted (offset : R) (l : list (R * R)) (d : R * R) :
  last (shifted offset l) (fst d + offset, snd d) =
  (fst (last l d) + offset, snd (last l d)).
Proof.
  induction l as [| a l IH]; [reflexivity |].
  destruct l as [| b l]; [reflexivity |]. exact IH.
Qed.

Lemma increasing_first_last (first : R * R) (rest : list (R * R)) :
  increasing (map fst (first :: rest)) -> rest <> [] ->
  fst first < fst (last (first :: rest) first).
Proof.
  intros Hs Hrest. destruct rest as [| q rest]; [contradiction |].
  pose proof (increasing_below_last rest q first (increasing_tail _ _ Hs)) as Hle.
  apply increasing_head in Hs. inversion Hs; subst. inversion Hle; subst.
  change (last (first :: q :: rest) first) with (last (q :: rest) first). lra.
Qed.

Lemma resampleAt_outside (first : R * R) (rest : list (R * R)) (offset tau : R) :
  increasing (map fst (shifted offset (first :: rest))) ->
  tau < fst first + offset
  \/ fst (last (first :: rest) first) + offset < tau ->
  resampleAt (offsetCurveMap (curveOf (first :: rest)) (Fin offset)) (Fin tau) =
  Ok (pt (tau, chordValue first rest offset tau)).
Proof.
  intros Hs Hout. rewrite offsetCurveMap_curveOf.
  change (shifted offset (first :: rest))
    with ((fst first + offset, snd first) :: shifted offset rest) in Hs |- *.
  pose proof (last_shifted offset (first :: rest) first) as Hlast.
  change (shifted offset (first :: rest))
    with ((fst first + offset, snd first) :: shifted offset rest) in Hlast.
  unfold resampleAt. rewrite bracket_outside; [| exact Hs |].
  2:{ rewrite Hlast. cbn [fst]. exact Hout. }
  f_equal. rewrite Hlast. unfold chordValue.
  destruct rest as [| q rest].
  - now apply interpolate_same_time.
  - apply interpolate_distinct_times.
    pose proof (increasing_first_last _ _ Hs) as Hlt.
    rewrite Hlast in Hlt. cbn [fst] in Hlt.
    apply Rlt_not_eq, Hlt. discriminate.
Qed.

(** C2 fails as stated.  On the curve (0, 0.5), (1, 0.5), (2, 1) with no
    offset, the reference time [-1] lies before the first point.  The
    nearest boundary value is 0.5, and extrapolating along the first
    segment (which is flat) also gives 0.5; the code returns 0.25, the
    value at [-1] of the chord from (0, 0.5) to (2, 1). *)
Lemma offsetCurve_outside_not_boundary_value :
  let l := [(0, 0.5); (1, 0.5); (2, 1)] in
  increasing (map fst (shifted 0 l))
  /\ -1 < 0 + 0
  /\ offsetCurve (curveOf l) (Fin 0) [Fin (-1)] = Ok [pt (-1, 0.25)]
  /\ interpolate (pt (0, 0.5)) (pt (1, 0.5)) (Fin (-1)) = pt (-1, 0.5)
  /\ Fin 0.25 <> Fin 0.5.
Proof.
  assert (Hs : increasing (map fst (shifted 0 [(0, 0.5); (1, 0.5); (2, 1)]))).
  { cbn. repeat constructor; lra. }
  split; [exact Hs |]. split; [lra |]. split; [| split].
  - unfold offsetCurve. cbn [mapM].
    rewrite (resampleAt_outside (0, 0.5) [(1, 0.5); (2, 1)] 0 (-1) Hs)
      by (left; cbn; lra).
    cbn [bind]. do 3 f_equal. unfold chordValue. cbn [last fst snd].
    replace (0.5 + (-1 - (0 + 0)) / (2 + 0 - (0 + 0)) * (1 - 0.5)) with 0.25
      by lra.
    rewrite Rmin_right by lra. rewrite Rmax_right by lra. reflexivity.
  - rewrite interpolate_distinct_times by lra. unfold pt. cbn [fst snd].
    do 2 f_equal.
    replace (0.5 + (-1 - 0) / (1 - 0) * (0.5 - 0.5)) with 0.5 by lra.
    rewrite Rmin_right by lra. rewrite Rmax_right by lra. reflexivity.
  - intros H. injection H as H. lra.
Qed.

(** C2, as the code has it.  For a non-empty curve whose shifted times are
    strictly increasing and a reference time strictly before the first or
    strictly after the last shifted point, no segment brackets the
    reference time and the resampler interpolates between the first and
    the last shifted point: it returns the value at that time of the chord
    through these two points, clamped to [[0, 1]]; for a single-point curve
    it returns the value of that point. *)
Theorem offsetCurve_outside (first : R * R) (rest : list (R * R))
    (offset tau : R) :
  increasing (map fst (shifted offset (first :: rest))) ->
  tau < fst first + offset
  \/ fst (last (first :: rest) first) + offset < tau ->
  offsetCurve (curveOf (first :: rest)) (Fin offset) [Fin tau] =
  Ok [pt (tau, chordValue first rest offset tau)].
Proof.
  intros Hs Hout. unfold offsetCurve. cbn [mapM].
  rewrite resampleAt_outside by assumption. reflexivity.
Qed.

Lemma offsetCurve_outside_witness :
  offsetCurve (curveOf [(0, 0.2); (1, 0.4); (2, 0.5)]) (Fin 3) [Fin 7] =
  Ok [pt (7, chordValue (0, 0.2) [(1, 0.4); (2, 0.5)] 3 7)].
Proof.
  apply (offsetCurve_outside (0, 0.2) [(1, 0.4); (2, 0.5)] 3 7).
  - cbn. repeat constructor; lra.
  - right. cbn. lra.
Defined.

(** ** Zero offset on the curve's own grid *)

Lemma resampleAt_own_time (l : list (R * R)) :
  increasing (map fst l) ->
  Forall (fun tv => 0 <= snd tv <= 1) l ->
  forall tv, In tv l -> resampleAt (curveOf l) (Fin (fst tv)) = Ok (pt tv).
Proof.
  intros Hs Hv [t v] Hin. cbn [fst].
  rewrite Forall_forall in Hv. pose proof (Hv _ Hin) as Hrange. cbn in Hrange.
  destruct l as [| [t0 v0] rest]; [contradiction |].
  unfold resampleAt, bracket.
  destruct Hin as [Heq | Hin].
  - injection Heq as -> ->.
    destruct rest as [| [t1 v1] rest].
    + cbn [curveOf map scan length Nat.sub nth_error].
      rewrite interpolate_same_time by reflexivity. reflexivity.
    + assert (Hlt : t < t1).
      { apply increasing_head in Hs. now inversion Hs. }
      rewrite scan_hit by (cbn; lra).
      rewrite interpolate_distinct_times by lra.
      do 3 f_equal.
      replace (v + (t - t) / (t1 - t) * (v1 - v)) with v.
      * rewrite Rmin_right by lra. now rewrite Rmax_right by lra.
      * unfold Rminus at 1. rewrite Rplus_opp_r. unfold Rdiv. lra.
  - destruct (scan_own_time rest (t0, v0) Hs (t, v) Hin) as ([t' v'] & E & Hlt).
    cbn [fst] in E, Hlt. rewrite E.
    rewrite interpolate_distinct_times by lra.
    do 3 f_equal.
    replace (v' + (t - t') / (t - t') * (v - v')) with v.
    + rewrite Rmin_right by lra. now rewrite Rmax_right by lra.
    + unfold Rdiv. rewrite Rinv_r by lra. lra.
Qed.

Lemma offsetCurve_own_grid (l : list (R * R)) :
  increasing (map fst l) ->
  Forall (fun tv => 0 <= snd tv <= 1) l ->
  offsetCurve (curveOf l) (Fin 0) (map time (curveOf l)) = Ok (curveOf l).
Proof.
  intros Hs Hv. unfold offsetCurve.
  rewrite offsetCurveMap_curveOf, shifted_zero.
  unfold curveOf at 2 3. rewrite map_map.
  apply mapM_map_Ok. intros tv Hin. cbn [pt time].
  now apply resampleAt_own_time.
Qed.





(** *** The same call on binary64 numbers *)




Section Binary64Rounding.

Import PrimFloat.
#[local] Set Warnings "-inexact-float".


End Binary64Rounding.



(** ** The orchestrator with no offset *)

Lemma generateSCurve_curveOf (dl ds : R) (n : Z) :
  IZR n <> 0 ->
  generateSCurve (Fin dl) n (Fin ds) = curveOf (sCurveReal dl n ds).
Proof.
  intros Hn. unfold generateSCurve, curveOf, sCurveReal. rewrite map_map.
  apply map_ext. intros i.
  rewrite sampleTime_Fin by exact Hn. rewrite sCurveValue_Fin. reflexivity.
Qed.

Lemma increasing_map_seq (f : nat -> R) (a m : nat) :
  (forall i j, (i < j)%nat -> f i < f j) ->
  increasing (map f (seq a m)).
Proof.
  intros Hf. revert a. induction m as [| m IH]; intros a; cbn [seq map].
  - constructor.
  - constructor; [apply IH |].
    rewrite Forall_forall. intros x Hx. apply in_map_iff in Hx.
    destruct Hx as (j & <- & Hj). apply in_seq in Hj. apply Hf. lia.
Qed.

Lemma sCurveReal_increasing (dl ds : R) (n : Z) :
  0 < dl -> (1 <= n)%Z -> increasing (map fst (sCurveReal dl n ds)).
Proof.
  intros Hdl Hn. unfold sCurveReal, indices. rewrite !map_map. cbn [fst].
  apply increasing_map_seq. intros i j Hij. unfold gridTime.
  now apply grid_step_increasing.
Qed.

Lemma sCurveReal_range (dl ds : R) (n : Z) :
  Forall (fun tv => 0 <= snd tv <= 1) (sCurveReal dl n ds).
Proof.
  unfold sCurveReal. rewrite Forall_map. rewrite Forall_forall.
  intros i _. cbn [snd]. unfold logistic.
  pose proof (logistic_open_unit (- 0.5 * (gridTime dl n ds i - 0.4 * dl))). lra.
Qed.

Lemma generateHypeCycle_real (dl ds : R) (n : Z) :
  IZR n <> 0 ->
  exists lh, generateHypeCycle (Fin dl) n (Fin ds) = curveOf lh.
Proof.
  intros Hn. unfold generateHypeCycle.
  induction (indices n) as [| i idx [lh IH]]; [now exists [] |].
  cbn [map]. rewrite IH, sampleTime_Fin by exact Hn.
  destruct (hypeValue_finite (IZR i / IZR n * (dl + Rabs ds) + ds)) as [w ->].
  rewrite clamp01_Fin.
  exists ((IZR i / IZR n * (dl + Rabs ds) + ds, Rmax 0 (Rmin 1 w)) :: lh).
  reflexivity.
Qed.

(** With no offset the resampled adoption curve is the adoption curve. *)
Lemma generateCombinedCurve_zero_offset (blendRatio : number) (dl ds : R) (n : Z) :
  0 < dl -> (1 <= n)%Z ->
  generateCombinedCurve (Fin 0) blendRatio (Fin dl) n (Fin ds) =
  Ok (mkCombined
        (generateHypeCycle (Fin dl) n (Fin ds))
        (generateSCurve (Fin dl) n (Fin ds))
        (blendCurves (generateHypeCycle (Fin dl) n (Fin ds))
                     (generateSCurve (Fin dl) n (Fin ds)) blendRatio)).
Proof.
  intros Hdl Hp.
  assert (Hn : IZR n <> 0).
  { apply not_eq_sym, Rlt_not_eq. change 0 with (IZR 0). apply IZR_lt. lia. }
  unfold generateCombinedCurve.
  rewrite <- map_time_generateSCurve.
  rewrite (generateSCurve_curveOf dl ds n Hn).
  rewrite offsetCurve_own_grid;
    [reflexivity | now apply sCurveReal_increasing | apply sCurveReal_range].
Qed.

Lemma hypeValue_before_trigger (t : R) :
  t < 0 -> clamp01 (hypeValue (Fin t)) = Fin 0.05.
Proof.
  intros Ht. unfold hypeValue. rewrite ltb_Fin_true by exact Ht.
  unfold hypeBaseline. apply clamp01_id. lra.
Qed.

Lemma indices_four : indices 4 = [0; 1; 2; 3; 4]%Z.
Proof. reflexivity. Qed.

Lemma Rabs_minus_10 : Rabs (-10) = 10.
Proof. rewrite Rabs_left; lra. Qed.

(** The time grid and the first two hype values of the worked example. *)
Lemma example_hype_grid :
  map time (generateHypeCycle (Fin 20) 4 (Fin (-10))) =
  [Fin (-10); Fin (-2.5); Fin 5; Fin 12.5; Fin 20]
  /\ nth_error (generateHypeCycle (Fin 20) 4 (Fin (-10))) 0 =
     Some (mkPoint (Fin (-10)) (Fin 0.05))
  /\ nth_error (generateHypeCycle (Fin 20) 4 (Fin (-10))) 1 =
     Some (mkPoint (Fin (-2.5)) (Fin 0.05)).
Proof.
  assert (H4 : IZR 4 <> 0) by lra.
  assert (T0 : sampleTime (Fin 20) 4 (Fin (-10)) 0 = Fin (-10)).
  { rewrite sampleTime_Fin, Rabs_minus_10 by exact H4. f_equal. lra. }
  assert (T1 : sampleTime (Fin 20) 4 (Fin (-10)) 1 = Fin (-2.5)).
  { rewrite sampleTime_Fin, Rabs_minus_10 by exact H4. f_equal. lra. }
  assert (T2 : sampleTime (Fin 20) 4 (Fin (-10)) 2 = Fin 5).
  { rewrite sampleTime_Fin, Rabs_minus_10 by exact H4. f_equal. lra. }
  assert (T3 : sampleTime (Fin 20) 4 (Fin (-10)) 3 = Fin 12.5).
  { rewrite sampleTime_Fin, Rabs_minus_10 by exact H4. f_equal. lra. }
  assert (T4 : sampleTime (Fin 20) 4 (Fin (-10)) 4 = Fin 20).
  { rewrite sampleTime_Fin, Rabs_minus_10 by exact H4. f_equal. lra. }
  unfold generateHypeCycle. rewrite indices_four.
  cbn [map nth_error time]. rewrite T0, T1, T2, T3, T4.
  split; [reflexivity |].
  rewrite !hypeValue_before_trigger by lra. split; reflexivity.
Qed.

(** C3 fails as stated: the grid of the worked example is not
    -10, -5, 0, 5, 10.  The total range is [20 + |-10| = 30], so the five
    sample times are -10, -2.5, 5, 12.5 and 20. *)
Lemma example_grid_not_symmetric :
  exists r : Combined,
    generateCombinedCurve (Fin 0) (Fin 0.5) (Fin 20) 4 (Fin (-10)) = Ok r
    /\ map time (hypeCurve r) = [Fin (-10); Fin (-2.5); Fin 5; Fin 12.5; Fin 20]
    /\ map time (hypeCurve r) <> [Fin (-10); Fin (-5); Fin 0; Fin 5; Fin 10].
Proof.
  rewrite generateCombinedCurve_zero_offset by (lra || lia).
  eexists. split; [reflexivity |]. cbn [hypeCurve].
  destruct example_hype_grid as (-> & _ & _). split; [reflexivity |].
  intros H. injection H as H _. lra.
Qed.

(** C3, as the code has it.  The call with [timeOffset = 0],
    [blendRatio = 0.5], [timeRange = 20], [points = 4], [startTime = -10]
    returns three curves on the five times -10, -2.5, 5, 12.5, 20; the
    hype curve is at the baseline 0.05 at the two negative times; the
    resampled adoption curve is the adoption curve itself; and the
    combined curve is the pointwise average of the two. *)
Theorem example_combine :
  exists r : Combined,
    generateCombinedCurve (Fin 0) (Fin 0.5) (Fin 20) 4 (Fin (-10)) = Ok r
    /\ map time (hypeCurve r) = [Fin (-10); Fin (-2.5); Fin 5; Fin 12.5; Fin 20]
    /\ map time (sCurve r) = map time (hypeCurve r)
    /\ map time (combinedCurve r) = map time (hypeCurve r)
    /\ nth_error (hypeCurve r) 0 = Some (mkPoint (Fin (-10)) (Fin 0.05))
    /\ nth_error (hypeCurve r) 1 = Some (mkPoint (Fin (-2.5)) (Fin 0.05))
    /\ sCurve r = generateSCurve (Fin 20) 4 (Fin (-10))
    /\ exists lh ls : list (R * R),
         hypeCurve r = curveOf lh /\ sCurve r = curveOf ls
         /\ combinedCurve r = curveOf (average lh ls).
Proof.
  rewrite generateCombinedCurve_zero_offset by (lra || lia).
  eexists. split; [reflexivity |]. cbn [hypeCurve sCurve combinedCurve].
  destruct example_hype_grid as (Ht & H0 & H1).
  assert (H4 : IZR 4 <> 0) by lra.
  destruct (generateHypeCycle_real 20 (-10) 4 H4) as [lh Hlh].
  pose proof (generateSCurve_curveOf 20 (-10) 4 H4) as Hls.
  split; [exact Ht |].
  split; [apply map_time_generateSCurve |].
  split.
  { apply map_time_blendCurves.
    now rewrite length_generateHypeCycle, length_generateSCurve. }
  split; [exact H0 |]. split; [exact H1 |]. split; [reflexivity |].
  exists lh, (sCurveReal 20 4 (-10)).
  split; [exact Hlh |]. split; [exact Hls |].
  rewrite Hlh, Hls. apply blendCurves_half.
Qed.

(** * Further properties of the code *)

(** ** The shape of the hype model *)

Lemma exp_le_one (x : R) : x <= 0 -> Rtrigo_def.exp x <= 1.
Proof.
  intros [Hlt | ->].
  - left. rewrite <- exp_0. now apply exp_increasing.
  - right. apply exp_0.
Qed.

Lemma hypeRise_range (t : R) :
  0 <= t ->
  exists v : R, hypeRise (Fin t) = Fin v /\ 0.1 <= v <= 1.
Proof.
  intros Ht. rewrite hypeRise_Fin. eexists. split; [reflexivity |].
  set (a := Rtrigo_def.exp (- 1.5 * t)).
  set (b := Rtrigo_def.exp (- ((t - 2.5) * (t - 2.5)) / 2)).
  assert (Ha : 0 < a <= 1).
  { split; [apply exp_pos | apply exp_le_one; lra]. }
  assert (Hb : 0 < b <= 1).
  { split; [apply exp_pos | apply exp_le_one].
    pose proof (Rle_0_sqr (t - 2.5)) as Hsq. unfold Rsqr in Hsq. lra. }
  nra.
Qed.

Lemma hypeDecline_range (t : R) :
  3 <= t ->
  exists v : R, hypeDecline (Fin t) = Fin v /\ 0.15 < v <= 0.95.
Proof.
  intros Ht. rewrite hypeDecline_Fin. eexists. split; [reflexivity |].
  set (d := Rtrigo_def.exp (- 0.8 * (t - 3))).
  assert (Hd : 0 < d <= 1).
  { split; [apply exp_pos | apply exp_le_one; lra]. }
  lra.
Qed.

Lemma hypeRecovery_range (t : R) :
  exists v : R, hypeRecovery (Fin t) = Fin v /\ 0.15 < v < 0.7.
Proof.
  rewrite hypeRecovery_Fin. eexists. split; [reflexivity |].
  pose proof (logistic_open_unit (- 5 * (Rmin 1 ((t - 10) / 8) - 0.5))). lra.
Qed.

Lemma hypeValue_range (t : R) :
  exists v : R, hypeValue (Fin t) = Fin v /\ 0.05 <= v <= 1.
Proof.
  unfold hypeValue.
  destruct (Rlt_dec t 0) as [Hneg | Hpos].
  { rewrite ltb_Fin_true by exact Hneg. exists 0.05. split; [reflexivity | lra]. }
  rewrite ltb_Fin_false by lra.
  destruct (Rle_dec t 3) as [H3 | H3].
  { rewrite leb_Fin_true by exact H3.
    destruct (hypeRise_range t) as (v & -> & Hv); [lra |].
    exists v. split; [reflexivity | lra]. }
  rewrite leb_Fin_false by lra.
  destruct (Rle_dec t 10) as [H10 | H10].
  { rewrite leb_Fin_true by exact H10.
    destruct (hypeDecline_range t) as (v & -> & Hv); [lra |].
    exists v. split; [reflexivity | lra]. }
  rewrite leb_Fin_false by lra.
  destruct (hypeRecovery_range t) as (v & -> & Hv).
  exists v. split; [reflexivity | lra].
Qed.

(** X1.  At every real local time the unclamped value of the hype model is
    already a real between 0.05 and 1, so the clamp that
    [generateHypeCycle] applies before storing a value changes nothing. *)
Theorem hype_clamp_is_identity (t : R) :
  clamp01 (hypeValue (Fin t)) = hypeValue (Fin t)
  /\ exists v : R, hypeValue (Fin t) = Fin v /\ 0.05 <= v <= 1.
Proof.
  destruct (hypeValue_range t) as (v & Hv & Hrange).
  split; [| now exists v].
  rewrite Hv. apply clamp01_id. lra.
Qed.

(** X2.  From local time 18 on, [progress] is capped at 1 and the hype
    value no longer moves: it stays at the value it has at [t = 18], a
    real between 0.57 and 0.7, just short of [plateauValue]. *)
Theorem hype_plateau (t : R) :
  18 <= t ->
  hypeValue (Fin t) = hypeValue (Fin 18)
  /\ exists v : R, hypeValue (Fin t) = Fin v /\ 0.57 < v < 0.7.
Proof.
  intros Ht.
  assert (Hrec : forall u, 18 <= u ->
            hypeValue (Fin u)
            = Fin (0.15 + 0.55 * (1 / (1 + Rtrigo_def.exp (- (5 / 2)))))).
  { intros u Hu. unfold hypeValue.
    rewrite ltb_Fin_false, !leb_Fin_false by lra.
    rewrite hypeRecovery_Fin. rewrite (Rmin_left 1 ((u - 10) / 8)) by lra.
    reals_eq. }
  rewrite (Hrec t Ht), (Hrec 18) by lra. split; [reflexivity |].
  eexists. split; [reflexivity |].
  set (E := Rtrigo_def.exp (- (5 / 2))).
  assert (HE : 0 < E) by apply exp_pos.
  assert (HE' : E * (1 + 5 / 2) <= 1) by (apply exp_neg_le; lra).
  assert (Hd : 0 < / (1 + E)) by (apply Rinv_0_lt_compat; lra).
  assert (Hm : / (1 + E) * (1 + E) = 1) by (apply Rinv_l; lra).
  unfold Rdiv. rewrite Rmult_1_l. nra.
Qed.

Lemma hype_plateau_witness :
  hypeValue (Fin 25) = hypeValue (Fin 18)
  /\ exists v : R, hypeValue (Fin 25) = Fin v /\ 0.57 < v < 0.7.
Proof. apply (hype_plateau 25). lra. Defined.

(** ** The shape of the adoption curve *)

Lemma logistic_increasing (dl t1 t2 : R) :
  t1 < t2 -> logistic dl t1 < logistic dl t2.
Proof.
  intros Hlt. unfold logistic, Rdiv. rewrite !Rmult_1_l.
  pose proof (exp_pos (- 0.5 * (t1 - 0.4 * dl))) as H1.
  pose proof (exp_pos (- 0.5 * (t2 - 0.4 * dl))) as H2.
  apply Rinv_lt_contravar; [nra |].
  apply Rplus_lt_compat_l, exp_increasing. lra.
Qed.

(** X3.  For a positive [domainLength] and [pointCount >= 1] the adoption
    curve never falls: a later point never carries a smaller value than an
    earlier one. *)
Theorem generateSCurve_never_falls (domainStart domainLength : R)
    (pointCount : Z) :
  0 < domainLength -> (1 <= pointCount)%Z ->
  forall (i j : nat) (p q : CurvePoint),
    (i < j)%nat ->
    nth_error (generateSCurve (Fin domainLength) pointCount (Fin domainStart)) i
    = Some p ->
    nth_error (generateSCurve (Fin domainLength) pointCount (Fin domainStart)) j
    = Some q ->
    leb (value p) (value q) = true.
Proof.
  intros Hdl Hp i j p q Hij Ei Ej.
  assert (Hn : IZR pointCount <> 0).
  { apply not_eq_sym, Rlt_not_eq. change 0 with (IZR 0). apply IZR_lt. lia. }
  apply nth_error_generateSCurve in Ei, Ej.
  destruct Ei as [_ ->], Ej as [_ ->]. cbn [value].
  rewrite !sampleTime_Fin by exact Hn. rewrite !sCurveValue_Fin.
  apply leb_Fin_true. left. apply (logistic_increasing domainLength).
  now apply grid_step_increasing.
Qed.

Lemma generateSCurve_never_falls_witness :
  let curve := generateSCurve (Fin 20) 4 (Fin (-10)) in
  exists p q : CurvePoint,
    nth_error curve 1 = Some p /\ nth_error curve 3 = Some q
    /\ leb (value p) (value q) = true.
Proof.
  eexists; eexists. split; [reflexivity |]. split; [reflexivity |].
  apply (generateSCurve_never_falls (-10) 20 4 ltac:(lra) ltac:(lia) 1%nat 3%nat);
    [lia | reflexivity | reflexivity].
Defined.

(** X4.  The midpoint [timeRange * 0.4] is where adoption is one half:
    the logistic value is exactly 1/2 at the midpoint, at most 1/2 at any
    real time up to it and at least 1/2 at any real time from it on. *)
Theorem sCurveValue_midpoint (timeRange t : R) :
  sCurveValue (Fin timeRange) (Fin (timeRange * 0.4)) = Fin (1 / 2)
  /\ exists v : R,
       sCurveValue (Fin timeRange) (Fin t) = Fin v
       /\ (t <= timeRange * 0.4 -> v <= 1 / 2)
       /\ (timeRange * 0.4 <= t -> 1 / 2 <= v).
Proof.
  split.
  - rewrite sCurveValue_Fin. f_equal.
    replace (- 0.5 * (timeRange * 0.4 - 0.4 * timeRange)) with 0 by lra.
    rewrite exp_0. lra.
  - rewrite sCurveValue_Fin. eexists. split; [reflexivity |].
    set (E := Rtrigo_def.exp (- 0.5 * (t - 0.4 * timeRange))).
    assert (HE : 0 < E) by apply exp_pos.
    assert (Hd : 0 < / (1 + E)) by (apply Rinv_0_lt_compat; lra).
    assert (Hm : / (1 + E) * (1 + E) = 1) by (apply Rinv_l; lra).
    unfold Rdiv. rewrite Rmult_1_l. split; intros Ht.
    + assert (H1 : 1 <= E).
      { pose proof (exp_ineq1_le (- 0.5 * (t - 0.4 * timeRange))).
        unfold E. lra. }
      nra.
    + assert (H1 : E <= 1) by (apply exp_le_one; lra).
      nra.
Qed.

(** ** Blending: mismatched lengths, range *)

Lemma blendCurves_nil_r (c1 : list CurvePoint) (r : number) :
  blendCurves c1 [] r = [].
Proof. destruct c1; reflexivity. Qed.

(** X5.  [blendCurves] never fails on curves of different lengths: it
    stops at the shorter one.  The result has [min] of the two lengths and
    its times are the leading times of the first curve, whatever the times
    of the second curve are. *)
Theorem blendCurves_truncates (curve1 curve2 : list CurvePoint) (r : number) :
  length (blendCurves curve1 curve2 r) = Nat.min (length curve1) (length curve2)
  /\ map time (blendCurves curve1 curve2 r)
     = firstn (length curve2) (map time curve1).
Proof.
  split; [apply length_blendCurves |].
  revert curve2. induction curve1 as [| p c1 IH]; intros [| q c2].
  - reflexivity.
  - reflexivity.
  - now rewrite blendCurves_nil_r.
  - rewrite blendCurves_cons. cbn [map length firstn blendPoint time].
    f_equal. apply IH.
Qed.

Lemma blend_between (a b r lo hi : R) :
  lo <= a <= hi -> lo <= b <= hi -> 0 <= r <= 1 ->
  lo <= a * (1 + - r) + b * r <= hi.
Proof. intros Ha Hb Hr. nra. Qed.

Lemma blendCurves_real (la lb : list (R * R)) (r : R) :
  blendCurves (curveOf la) (curveOf lb) (Fin r) =
  curveOf (map (fun ab => (fst (fst ab),
                           snd (fst ab) * (1 + - r) + snd (snd ab) * r))
               (combine la lb)).
Proof.
  revert lb. induction la as [| [t a] la IH]; intros [| [t' b] lb];
    try reflexivity.
  rewrite !curveOf_cons, blendCurves_cons, IH. reflexivity.
Qed.

(** X6.  Blending two real-valued curves whose values lie in [[0, 1]] with
    a ratio in [[0, 1]] gives a curve whose values lie in [[0, 1]]. *)
Theorem blendCurves_unit_range (la lb : list (R * R)) (r : R) :
  Forall (fun tv => 0 <= snd tv <= 1) la ->
  Forall (fun tv => 0 <= snd tv <= 1) lb ->
  0 <= r <= 1 ->
  exists lc : list (R * R),
    blendCurves (curveOf la) (curveOf lb) (Fin r) = curveOf lc
    /\ Forall (fun tv => 0 <= snd tv <= 1) lc.
Proof.
  intros Ha Hb Hr. rewrite blendCurves_real. eexists. split; [reflexivity |].
  rewrite Forall_map, Forall_forall. intros [[t a] [t' b]] Hin. cbn [fst snd].
  rewrite Forall_forall in Ha, Hb.
  pose proof (Ha _ (in_combine_l _ _ _ _ Hin)) as Hav.
  pose proof (Hb _ (in_combine_r _ _ _ _ Hin)) as Hbv.
  cbn [snd] in Hav, Hbv. now apply blend_between.
Qed.

Lemma blendCurves_unit_range_witness :
  exists lc : list (R * R),
    blendCurves (curveOf [(0, 0.2); (1, 0.9)]) (curveOf [(0, 0.6); (1, 0.1)])
                (Fin 0.25) = curveOf lc
    /\ Forall (fun tv => 0 <= snd tv <= 1) lc.
Proof.
  apply (blendCurves_unit_range [(0, 0.2); (1, 0.9)] [(0, 0.6); (1, 0.1)] 0.25).
  - repeat constructor; cbn; lra.
  - repeat constructor; cbn; lra.
  - lra.
Defined.

Lemma blendCurves_ratio_zero (la lb : list (R * R)) :
  length la = length lb ->
  blendCurves (curveOf la) (curveOf lb) (Fin 0) = curveOf la.
Proof.
  rewrite blendCurves_real. revert lb.
  induction la as [| [t a] la IH]; intros [| [t' b] lb] H; try discriminate;
    [reflexivity |].
  injection H as H. cbn [combine map fst snd]. rewrite !curveOf_cons.
  f_equal; [| now apply IH].
  unfold pt. cbn [fst snd]. do 2 f_equal. lra.
Qed.

Lemma blendCurves_ratio_one (la lb : list (R * R)) :
  map fst la = map fst lb ->
  blendCurves (curveOf la) (curveOf lb) (Fin 1) = curveOf lb.
Proof.
  rewrite blendCurves_real. revert lb.
  induction la as [| [t a] la IH]; intros [| [t' b] lb] H; try discriminate;
    [reflexivity |].
  injection H as Ht H. cbn in Ht. subst t'.
  cbn [combine map fst snd]. rewrite !curveOf_cons.
  f_equal; [| now apply IH].
  unfold pt. cbn [fst snd]. do 2 f_equal. lra.
Qed.

(** ** Resampling: when it throws, what it returns *)

Lemma offsetCurve_no_times (curve : list CurvePoint) (offset : number) :
  offsetCurve curve offset [] = Ok [].
Proof. reflexivity. Qed.

Lemma offsetCurve_empty_curve (offset t : number) (ts : list number) :
  offsetCurve [] offset (t :: ts) = Throw TypeError.
Proof. reflexivity. Qed.

(** X8.  The resampler throws exactly when the curve is empty and there is
    at least one reference time; the exception is then a [TypeError].  In
    every other case it returns one point per reference time, in order,
    each stamped with its reference time, whatever the numbers are (NaN
    and the infinities included). *)
Theorem offsetCurve_throws_iff (curve : list CurvePoint) (offset : number)
    (originalTimes : list number) :
  (forall e, offsetCurve curve offset originalTimes = Throw e <->
             curve = [] /\ originalTimes <> [])
  /\ (forall out, offsetCurve curve offset originalTimes = Ok out ->
                  map time out = originalTimes).
Proof.
  split; [| intros out; apply offsetCurve_times].
  intros []. split.
  - intros Hthrow. destruct curve as [| p curve].
    + split; [reflexivity |]. intros ->. discriminate.
    + destruct (offsetCurve_returns (p :: curve) offset originalTimes)
        as [out Hout]; [discriminate | congruence].
  - intros [-> Hts]. destruct originalTimes as [| t ts]; [contradiction |].
    reflexivity.
Qed.

(** X9.  A one-point curve at a real time, shifted by a real offset, is
    read as a constant: every reference time gets the value of that point
    as it is, without clamping, even a value outside [[0, 1]] or a
    reference time that is not a real. *)
Theorem offsetCurve_single_point (t offset : R) (v : number)
    (originalTimes : list number) :
  offsetCurve [mkPoint (Fin t) v] (Fin offset) originalTimes
  = Ok (map (fun tau => mkPoint tau v) originalTimes).
Proof.
  unfold offsetCurve. cbn [offsetCurveMap map time value add].
  induction originalTimes as [| tau ts IH]; [reflexivity |].
  cbn [mapM map]. rewrite IH.
  unfold resampleAt, bracket. cbn [scan length Nat.sub nth_error].
  unfold interpolate. cbn [time value].
  rewrite strict_eq_Fin_true by reflexivity. reflexivity.
Qed.

Lemma interpolate_range (tb vb ta va tau : R) :
  0 <= vb <= 1 ->
  exists v : R,
    interpolate (pt (tb, vb)) (pt (ta, va)) (Fin tau) = pt (tau, v)
    /\ 0 <= v <= 1.
Proof.
  intros Hvb. destruct (Req_dec_T tb ta) as [Heq | Hne].
  - exists vb. split; [now apply interpolate_same_time | exact Hvb].
  - eexists. split; [now apply interpolate_distinct_times |].
    apply clamp01_range.
Qed.

Lemma resampleAt_range (l : list (R * R)) (tau : R) :
  l <> [] -> Forall (fun tv => 0 <= snd tv <= 1) l ->
  exists v : R,
    resampleAt (curveOf l) (Fin tau) = Ok (pt (tau, v)) /\ 0 <= v <= 1.
Proof.
  intros Hl Hrange.
  destruct (bracket_curveOf l tau Hl) as ([tb vb] & [ta va] & E & Hb & _).
  rewrite Forall_forall in Hrange. pose proof (Hrange _ Hb) as Hvb.
  cbn [snd] in Hvb.
  destruct (interpolate_range tb vb ta va tau Hvb) as (v & Hv & Hr).
  exists v. split; [| exact Hr].
  unfold resampleAt. rewrite E. now rewrite Hv.
Qed.

Lemma shifted_range (offset : R) (l : list (R * R)) :
  Forall (fun tv => 0 <= snd tv <= 1) l ->
  Forall (fun tv => 0 <= snd tv <= 1) (shifted offset l).
Proof. intros H. unfold shifted. rewrite Forall_map. exact H. Qed.

Lemma shifted_nonempty (offset : R) (l : list (R * R)) :
  l <> [] -> shifted offset l <> [].
Proof. destruct l; [contradiction | discriminate]. Qed.

Lemma offsetCurve_real_range (l : list (R * R)) (offset : R) (taus : list R) :
  l <> [] -> Forall (fun tv => 0 <= snd tv <= 1) l ->
  exists lo : list (R * R),
    offsetCurve (curveOf l) (Fin offset) (map Fin taus) = Ok (curveOf lo)
    /\ map fst lo = taus
    /\ Forall (fun tv => 0 <= snd tv <= 1) lo.
Proof.
  intros Hl Hrange. unfold offsetCurve. rewrite offsetCurveMap_curveOf.
  pose proof (shifted_nonempty offset l Hl) as Hs.
  pose proof (shifted_range offset l Hrange) as Hsr.
  induction taus as [| tau taus IH]; cbn [map mapM].
  - exists []. repeat split. constructor.
  - destruct (resampleAt_range (shifted offset l) tau Hs Hsr) as (v & -> & Hv).
    destruct IH as (lo & -> & Ht & Hlo). cbn [bind].
    exists ((tau, v) :: lo). split; [reflexivity |].
    split; [cbn; now f_equal | now constructor].
Qed.

(** X10.  On a non-empty real-valued curve whose values lie in [[0, 1]],
    with a real offset and real reference times, every resampled value is
    a real in [[0, 1]] and every output time is its reference time. *)
Theorem offsetCurve_keeps_unit_range (l : list (R * R)) (offset : R)
    (taus : list R) :
  l <> [] -> Forall (fun tv => 0 <= snd tv <= 1) l ->
  exists lo : list (R * R),
    offsetCurve (curveOf l) (Fin offset) (map Fin taus) = Ok (curveOf lo)
    /\ map fst lo = taus
    /\ Forall (fun tv => 0 <= snd tv <= 1) lo.
Proof. exact (offsetCurve_real_range l offset taus). Qed.

Lemma offsetCurve_keeps_unit_range_witness :
  exists lo : list (R * R),
    offsetCurve (curveOf [(0, 0.2); (1, 1); (2, 0)]) (Fin 0.5)
                (map Fin [0; 1; 5]) = Ok (curveOf lo)
    /\ map fst lo = [0; 1; 5]
    /\ Forall (fun tv => 0 <= snd tv <= 1) lo.
Proof.
  apply (offsetCurve_keeps_unit_range [(0, 0.2); (1, 1); (2, 0)] 0.5 [0; 1; 5]).
  - discriminate.
  - repeat constructor; cbn; lra.
Defined.

(** ** Resampling inside the range of the curve *)

Lemma last_cons_default {A : Type} (a : A) (l : list A) (d d' : A) :
  last (a :: l) d = last (a :: l) d'.
Proof.
  revert a. induction l as [| b l IH]; intros a; [reflexivity |].
  change (last (a :: b :: l) d) with (last (b :: l) d).
  change (last (a :: b :: l) d') with (last (b :: l) d'). apply IH.
Qed.

(** Inside the range the scan stops on the first pair of neighbours that
    brackets the reference time. *)
Lemma scan_in_range (rest : list (R * R)) :
  forall (p0 : R * R) (tau : R),
    increasing (map fst (p0 :: rest)) -> rest <> [] ->
    fst p0 <= tau <= fst (last (p0 :: rest) p0) ->
    exists (pre : list (R * R)) (p q : R * R) (suf : list (R * R)),
      p0 :: rest = pre ++ p :: q :: suf
      /\ fst p <= tau <= fst q /\ fst p < fst q
      /\ scan (curveOf (p0 :: rest)) (Fin tau) = Some (pt p, pt q).
Proof.
  induction rest as [| a rest IH]; intros p0 tau Hs Hne Hin; [contradiction |].
  assert (Hlt : fst p0 < fst a).
  { apply increasing_head in Hs. now inversion Hs. }
  destruct (Rle_dec tau (fst a)) as [Hle | Hgt].
  - exists [], p0, a, rest. split; [reflexivity |].
    split; [lra |]. split; [exact Hlt |]. apply scan_hit; lra.
  - assert (Hrest : rest <> []).
    { intros ->. cbn in Hin. lra. }
    change (last (p0 :: a :: rest) p0) with (last (a :: rest) p0) in Hin.
    rewrite (last_cons_default a rest p0 a) in Hin.
    destruct (IH a tau (increasing_tail _ _ Hs) Hrest)
      as (pre & p & q & suf & E & Hb & Hpq & Hscan); [lra |].
    exists (p0 :: pre), p, q, suf.
    split; [cbn; now f_equal |]. split; [exact Hb |]. split; [exact Hpq |].
    rewrite scan_skip_after by lra. exact Hscan.
Qed.

(** X11.  For a curve of at least two points with strictly increasing
    shifted times and a reference time between the first and the last
    shifted time, the resampler finds two neighbouring shifted points
    [p], [q] with [p.time <= tau <= q.time] and returns the linear
    interpolation between them at [tau], clamped to [[0, 1]]. *)
Theorem offsetCurve_in_range (first second : R * R) (rest : list (R * R))
    (offset tau : R) :
  let l := first :: second :: rest in
  increasing (map fst (shifted offset l)) ->
  fst first + offset <= tau <= fst (last l first) + offset ->
  exists (pre : list (R * R)) (p q : R * R) (suf : list (R * R)),
    shifted offset l = pre ++ p :: q :: suf
    /\ fst p <= tau <= fst q
    /\ offsetCurve (curveOf l) (Fin offset) [Fin tau]
       = Ok [pt (tau,
                 Rmax 0 (Rmin 1 (snd p
                                 + (tau - fst p) / (fst q - fst p)
                                   * (snd q - snd p))))].
Proof.
  intros l Hs Hin.
  pose proof (last_shifted offset l first) as Hlast.
  change (shifted offset l)
    with ((fst first + offset, snd first) :: shifted offset (second :: rest))
    in Hs, Hlast |- *.
  destruct (scan_in_range (shifted offset (second :: rest))
              (fst first + offset, snd first) tau Hs)
    as (pre & p & q & suf & E & Hb & Hpq & Hscan).
  { discriminate. }
  { rewrite Hlast. cbn [fst]. exact Hin. }
  exists pre, p, q, suf. split; [exact E |]. split; [exact Hb |].
  unfold offsetCurve. rewrite offsetCurveMap_curveOf.
  change (shifted offset l)
    with ((fst first + offset, snd first) :: shifted offset (second :: rest)).
  cbn [mapM]. unfold resampleAt, bracket. rewrite Hscan. cbn [bind].
  destruct p as [tp vp], q as [tq vq]. cbn [fst snd] in *.
  rewrite interpolate_distinct_times by lra. reflexivity.
Qed.

Lemma offsetCurve_in_range_witness :
  let l := [(0, 0.2); (1, 0.4); (2, 1)] in
  exists (pre : list (R * R)) (p q : R * R) (suf : list (R * R)),
    shifted 3 l = pre ++ p :: q :: suf
    /\ fst p <= 4.5 <= fst q
    /\ offsetCurve (curveOf l) (Fin 3) [Fin 4.5]
       = Ok [pt (4.5,
                 Rmax 0 (Rmin 1 (snd p
                                 + (4.5 - fst p) / (fst q - fst p)
                                   * (snd q - snd p))))].
Proof.
  apply (offsetCurve_in_range (0, 0.2) (1, 0.4) [(2, 1)] 3 4.5).
  - cbn. repeat constructor; lra.
  - cbn. lra.
Defined.

(** ** The orchestrator on arbitrary and on real inputs *)

Lemma offsetCurve_aligned_returns (curve : list CurvePoint) (offset : number)
    (originalTimes : list number) :
  length curve = length originalTimes ->
  exists out, offsetCurve curve offset originalTimes = Ok out.
Proof.
  intros Hlen. destruct curve as [| p curve].
  - destruct originalTimes; [now exists [] | discriminate].
  - apply offsetCurve_returns. discriminate.
Qed.

(** X13.  The orchestrator never throws, whatever numbers and whatever
    integer [points] it is given: the adoption curve and the reference
    grid always have the same length, so the resampler is never run on an
    empty curve with a non-empty grid.  The three curves it returns hold
    [points + 1] points each (none when [points] is negative) and share
    the times of the hype curve. *)
Theorem generateCombinedCurve_never_throws
    (timeOffset blendRatio timeRange startTime : number) (points : Z) :
  exists r : Combined,
    generateCombinedCurve timeOffset blendRatio timeRange points startTime = Ok r
    /\ length (hypeCurve r) = Z.to_nat (points + 1)
    /\ length (sCurve r) = Z.to_nat (points + 1)
    /\ length (combinedCurve r) = Z.to_nat (points + 1)
    /\ map time (sCurve r) = map time (hypeCurve r)
    /\ map time (combinedCurve r) = map time (hypeCurve r).
Proof.
  unfold generateCombinedCurve.
  set (hype := generateHypeCycle timeRange points startTime).
  set (orig := generateSCurve timeRange points startTime).
  assert (Hlh : length hype = Z.to_nat (points + 1))
    by apply length_generateHypeCycle.
  destruct (offsetCurve_aligned_returns orig timeOffset (map time hype))
    as [s Hs].
  { unfold orig. now rewrite length_generateSCurve, length_map. }
  rewrite Hs. cbn [bind]. eexists. split; [reflexivity |].
  cbn [hypeCurve sCurve combinedCurve].
  pose proof (offsetCurve_times _ _ _ _ Hs) as Ht.
  assert (Hls : length s = length hype).
  { rewrite <- (length_map time s), Ht. apply length_map. }
  repeat split.
  - exact Hlh.
  - congruence.
  - rewrite length_blendCurves, Hls, Nat.min_id. exact Hlh.
  - exact Ht.
  - apply map_time_blendCurves. now symmetry.
Qed.

Lemma generateHypeCycle_real_range (dl ds : R) (n : Z) :
  IZR n <> 0 ->
  exists lh,
    generateHypeCycle (Fin dl) n (Fin ds) = curveOf lh
    /\ Forall (fun tv => 0 <= snd tv <= 1) lh.
Proof.
  intros Hn. unfold generateHypeCycle.
  induction (indices n) as [| i idx (lh & IH & Hr)].
  - exists []. split; [reflexivity | constructor].
  - cbn [map]. rewrite IH, sampleTime_Fin by exact Hn.
    destruct (hypeValue_finite (IZR i / IZR n * (dl + Rabs ds) + ds)) as [w ->].
    rewrite clamp01_Fin.
    exists ((IZR i / IZR n * (dl + Rabs ds) + ds, Rmax 0 (Rmin 1 w)) :: lh).
    split; [reflexivity |]. constructor; [apply clamp01_range | exact Hr].
Qed.

Lemma map_time_curveOf (l : list (R * R)) :
  map time (curveOf l) = map Fin (map fst l).
Proof. unfold curveOf. now rewrite !map_map. Qed.

Lemma map_Fin_inj (a b : list R) : map Fin a = map Fin b -> a = b.
Proof.
  revert b. induction a as [| x a IH]; intros [| y b] H; try discriminate;
    [reflexivity |].
  cbn in H. injection H as -> H. f_equal. now apply IH.
Qed.

Lemma sCurveReal_nonempty (dl ds : R) (n : Z) :
  (1 <= n)%Z -> sCurveReal dl n ds <> [].
Proof.
  intros Hn H. apply (f_equal (@length _)) in H. unfold sCurveReal in H.
  rewrite length_map, length_indices in H. cbn in H. lia.
Qed.

(** The orchestrator on real arguments: three real-valued curves on one
    grid, the first two with values in [[0, 1]]. *)
Lemma generateCombinedCurve_real (o r dl ds : R) (n : Z) :
  (1 <= n)%Z ->
  exists lh ls : list (R * R),
    generateCombinedCurve (Fin o) (Fin r) (Fin dl) n (Fin ds)
    = Ok (mkCombined (curveOf lh) (curveOf ls)
                     (blendCurves (curveOf lh) (curveOf ls) (Fin r)))
    /\ generateHypeCycle (Fin dl) n (Fin ds) = curveOf lh
    /\ map fst ls = map fst lh
    /\ Forall (fun tv => 0 <= snd tv <= 1) lh
    /\ Forall (fun tv => 0 <= snd tv <= 1) ls.
Proof.
  intros Hp.
  assert (Hn : IZR n <> 0).
  { apply not_eq_sym, Rlt_not_eq. change 0 with (IZR 0). apply IZR_lt. lia. }
  destruct (generateHypeCycle_real_range dl ds n Hn) as (lh & Hlh & Hrh).
  destruct (offsetCurve_real_range (sCurveReal dl n ds) o (map fst lh)
              (sCurveReal_nonempty dl ds n Hp) (sCurveReal_range dl ds n))
    as (ls & Hls & Hts & Hrs).
  exists lh, ls. unfold generateCombinedCurve.
  rewrite (generateSCurve_curveOf dl ds n Hn), Hlh, map_time_curveOf, Hls.
  cbn [bind]. repeat split; assumption.
Qed.

(** X14.  For real arguments and [pointCount >= 1], at any offset, a
    blend ratio of 0 makes the combined curve the hype curve, and a blend
    ratio of 1 makes it the resampled adoption curve. *)
Theorem generateCombinedCurve_ratio_endpoints (offset domainLength domainStart : R)
    (pointCount : Z) :
  (1 <= pointCount)%Z ->
  exists r0 r1 : Combined,
    generateCombinedCurve (Fin offset) (Fin 0) (Fin domainLength) pointCount
                          (Fin domainStart) = Ok r0
    /\ combinedCurve r0 = hypeCurve r0
    /\ generateCombinedCurve (Fin offset) (Fin 1) (Fin domainLength) pointCount
                             (Fin domainStart) = Ok r1
    /\ combinedCurve r1 = sCurve r1.
Proof.
  intros Hp.
  destruct (generateCombinedCurve_real offset 0 domainLength domainStart
              pointCount Hp) as (lh & ls & E0 & _ & Ht & _ & _).
  destruct (generateCombinedCurve_real offset 1 domainLength domainStart
              pointCount Hp) as (lh' & ls' & E1 & _ & Ht' & _ & _).
  eexists; eexists. split; [exact E0 |]. split; [| split; [exact E1 |]];
    cbn [hypeCurve sCurve combinedCurve].
  - apply blendCurves_ratio_zero.
    rewrite <- (length_map fst lh), <- (length_map fst ls). now rewrite Ht.
  - apply blendCurves_ratio_one. now symmetry.
Qed.

Lemma generateCombinedCurve_ratio_endpoints_witness :
  exists r0 r1 : Combined,
    generateCombinedCurve (Fin 2.5) (Fin 0) (Fin 20) 200 (Fin (-10)) = Ok r0
    /\ combinedCurve r0 = hypeCurve r0
    /\ generateCombinedCurve (Fin 2.5) (Fin 1) (Fin 20) 200 (Fin (-10)) = Ok r1
    /\ combinedCurve r1 = sCurve r1.
Proof.
  apply (generateCombinedCurve_ratio_endpoints 2.5 20 (-10) 200). lia.
Defined.

(** X15.  For real arguments, [pointCount >= 1] and a blend ratio in
    [[0, 1]], every value of the three returned curves is a real in
    [[0, 1]], at any offset. *)
Theorem generateCombinedCurve_unit_range (offset ratio domainLength domainStart : R)
    (pointCount : Z) :
  (1 <= pointCount)%Z -> 0 <= ratio <= 1 ->
  exists lh ls lc : list (R * R),
    generateCombinedCurve (Fin offset) (Fin ratio) (Fin domainLength) pointCount
                          (Fin domainStart)
    = Ok (mkCombined (curveOf lh) (curveOf ls) (curveOf lc))
    /\ Forall (fun tv => 0 <= snd tv <= 1) lh
    /\ Forall (fun tv => 0 <= snd tv <= 1) ls
    /\ Forall (fun tv => 0 <= snd tv <= 1) lc.
Proof.
  intros Hp Hr.
  destruct (generateCombinedCurve_real offset ratio domainLength domainStart
              pointCount Hp) as (lh & ls & E & _ & _ & Hrh & Hrs).
  rewrite blendCurves_real in E.
  eexists lh, ls, _. split; [exact E |]. split; [exact Hrh |].
  split; [exact Hrs |].
  rewrite Forall_map, Forall_forall. intros [[t a] [t' b]] Hin. cbn [fst snd].
  rewrite Forall_forall in Hrh, Hrs.
  pose proof (Hrh _ (in_combine_l _ _ _ _ Hin)) as Hav.
  pose proof (Hrs _ (in_combine_r _ _ _ _ Hin)) as Hbv.
  cbn [snd] in Hav, Hbv. now apply blend_between.
Qed.

Lemma generateCombinedCurve_unit_range_witness :
  exists lh ls lc : list (R * R),
    generateCombinedCurve (Fin (-3)) (Fin 0.5) (Fin 20) 200 (Fin (-10))
    = Ok (mkCombined (curveOf lh) (curveOf ls) (curveOf lc))
    /\ Forall (fun tv => 0 <= snd tv <= 1) lh
    /\ Forall (fun tv => 0 <= snd tv <= 1) ls
    /\ Forall (fun tv => 0 <= snd tv <= 1) lc.
Proof.
  apply (generateCombinedCurve_unit_range (-3) 0.5 20 (-10) 200); [lia | lra].
Defined.

(** ** The chart rows *)










(** ** The earlier revision *)

Lemma blendCurves_ignores_times (c1 c2 : list CurvePoint) (o r : number) :
  blendCurves c1 (Legacy.offsetCurve c2 o) r = blendCurves c1 c2 r.
Proof.
  revert c2. induction c1 as [| p c1 IH]; intros [| q c2]; try reflexivity.
  change (Legacy.offsetCurve (q :: c2) o)
    with (mkPoint (add (time q) o) (value q) :: Legacy.offsetCurve c2 o).
  rewrite !blendCurves_cons, IH. reflexivity.
Qed.

(** X17.  In the earlier revision the time offset never reaches the
    combined curve: [offsetCurve] only rewrites time stamps and
    [blendCurves] pairs points by index, so the combined curve (and the
    hype curve) is the same for every offset, namely the blend of the
    unshifted curves; only the time stamps of the returned adoption curve
    move. *)
Theorem legacy_offset_has_no_effect (timeOffset blendRatio timeRange : number)
    (points : Z) :
  let r := Legacy.generateCombinedCurve timeOffset blendRatio timeRange points in
  combinedCurve r
  = blendCurves (Legacy.generateHypeCycle timeRange points)
                (Legacy.generateSCurve timeRange points) blendRatio
  /\ hypeCurve r = Legacy.generateHypeCycle timeRange points
  /\ map value (sCurve r) = map value (Legacy.generateSCurve timeRange points)
  /\ map time (sCurve r)
     = map (fun t => add t timeOffset)
           (map time (Legacy.generateSCurve timeRange points)).
Proof.
  cbn zeta. unfold Legacy.generateCombinedCurve.
  cbn [hypeCurve sCurve combinedCurve].
  split; [apply blendCurves_ignores_times |]. split; [reflexivity |].
  unfold Legacy.offsetCurve. rewrite !map_map. split; reflexivity.
Qed.

Lemma In_indices (n i : Z) : In i (indices n) -> (0 <= i <= n)%Z.
Proof.
  unfold indices. rewrite in_map_iff. intros (k & <- & Hk).
  apply in_seq in Hk. lia.
Qed.

Lemma sampleTime_start_zero (tr : R) (n i : Z) :
  sampleTime (Fin tr) n (Fin 0) i = Legacy.sampleTime (Fin tr) n i.
Proof.
  unfold sampleTime, Legacy.sampleTime. cbn [abs add].
  rewrite Rabs_R0, Rplus_0_r.
  destruct (div (of_Z i) (of_Z n)) as [x | | |]; cbn [mul add].
  - f_equal. lra.
  - unfold signed_inf.
    destruct (Rlt_dec 0 tr); [reflexivity |].
    destruct (Rlt_dec tr 0); reflexivity.
  - unfold signed_inf.
    destruct (Rlt_dec 0 (- tr)); [reflexivity |].
    destruct (Rlt_dec (- tr) 0); reflexivity.
  - reflexivity.
Qed.

Lemma legacy_sampleTime_not_negative (tr : R) (n i : Z) :
  0 <= tr -> (0 <= i <= n)%Z ->
  ltb (Legacy.sampleTime (Fin tr) n i) (Fin 0) = false.
Proof.
  intros Htr Hi. unfold Legacy.sampleTime, of_Z.
  destruct (Z.eq_dec n 0) as [-> | Hn].
  - assert (i = 0%Z) as -> by lia. cbn [div].
    destruct (Req_dec_T 0 0) as [_ | Hne]; [| now elim Hne].
    unfold signed_inf.
    destruct (Rlt_dec 0 0) as [H | _]; [lra | reflexivity].
  - assert (Hpos : 0 < IZR n) by (apply IZR_lt; lia).
    rewrite div_Fin by lra. cbn [mul]. apply ltb_Fin_false.
    apply Rmult_le_pos; [| exact Htr].
    apply Rmult_le_pos; [apply IZR_le; lia |].
    left. now apply Rinv_0_lt_compat.
Qed.

(** X19.  With [startTime = 0] and a real [timeRange >= 0] the current
    generators return exactly the curves of the earlier revision, for
    every integer [points]: the baseline branch is never taken and the
    grid is that of [[0, timeRange]]. *)
Theorem generators_extend_legacy (timeRange : R) (points : Z) :
  0 <= timeRange ->
  generateHypeCycle (Fin timeRange) points (Fin 0)
  = Legacy.generateHypeCycle (Fin timeRange) points
  /\ generateSCurve (Fin timeRange) points (Fin 0)
     = Legacy.generateSCurve (Fin timeRange) points.
Proof.
  intros Htr. split.
  - unfold generateHypeCycle, Legacy.generateHypeCycle.
    apply map_ext_in. intros i Hi. apply In_indices in Hi.
    rewrite sampleTime_start_zero. f_equal. f_equal.
    unfold hypeValue, Legacy.hypeValue.
    now rewrite legacy_sampleTime_not_negative.
  - unfold generateSCurve, Legacy.generateSCurve.
    apply map_ext. intros i. now rewrite sampleTime_start_zero.
Qed.

Lemma generators_extend_legacy_witness :
  generateHypeCycle (Fin 20) 100 (Fin 0) = Legacy.generateHypeCycle (Fin 20) 100
  /\ generateSCurve (Fin 20) 100 (Fin 0) = Legacy.generateSCurve (Fin 20) 100.
Proof. apply (generators_extend_legacy 20 100). lra. Defined.
